(** * classifier.py: cross-validated evaluation of scikit-learn predictors

    A shallow embedding of [src/classifier.py].  The module wires a small
    registry of scikit-learn estimators to a stratified 10-fold evaluation
    loop ([Classifier.evaluate]), a generator that trains one SVC per fold
    ([Classifier.cross_validate]) and a thin [Classifier.train].

    Conventions of the embedding:
    - Python floats are exact rationals ([Q]); running sums are left folds
      starting from [0], in the order the loop adds them.
    - Python exceptions are values of [exn]; a computation that may raise
      returns a [result].
    - A method of [Classifier] is a function of the object's state that
      returns the new state, the events it emitted (log lines, plot calls)
      and a [result]: state and events survive an exception.
    - scikit-learn is not part of the repository: estimators, metrics and
      the fold generator are the fields of the interface [Sklearn]; all of
      them may raise.  Their internal randomness is abstracted: a field is
      an arbitrary but fixed function. *)

From Stdlib Require Import String List ZArith QArith Bool Arith Lia Lqa.
From Stdlib Require Import Permutation.
Import ListNotations.

Local Open Scope string_scope.
Local Open Scope list_scope.

(** ** Exceptions and results *)

(** The exceptions the module and its collaborators raise.  The last three
    are the names the specification uses; [classifier.py] itself defines no
    exception class. *)
Inductive exn : Type :=
| KeyError
| IndexError
| ValueError
| TypeError
| ZeroDivisionError
| NotFittedError
| UnknownConfigError
| ConfigUnavailableError
| InsufficientSamplesError.

Inductive result (A : Type) : Type :=
| Ok (a : A)
| Err (e : exn).
Arguments Ok {A} a.
Arguments Err {A} e.

Definition rbind {A B : Type} (r : result A) (f : A -> result B) : result B :=
  match r with
  | Ok a => f a
  | Err e => Err e
  end.

Fixpoint rmap {A B : Type} (f : A -> result B) (l : list A) : result (list B) :=
  match l with
  | [] => Ok []
  | a :: t => rbind (f a) (fun b => rbind (rmap f t) (fun bs => Ok (b :: bs)))
  end.

(** [a[i]] for a non-negative index: [IndexError] out of range. *)
Definition getitem {A : Type} (a : list A) (i : nat) : result A :=
  match nth_error a i with
  | Some v => Ok v
  | None => Err IndexError
  end.

(** numpy indexing by a sequence of indices, [a[index]]: the rows at the
    given positions, in the order of [index]. *)
Definition take {A : Type} (a : list A) (index : list nat) : result (list A) :=
  rmap (getitem a) index.

(** ** The estimator registry *)

Inductive param : Type :=
| PStr (s : string)
| PNum (q : Q)
| PInt (z : Z)
| PBool (b : bool).

(** A constructor call [Name(key=value, ...)] of scikit-learn. *)
Record estimator : Type := mkEstimator {
  est_class : string;
  est_kwargs : list (string * param)
}.

Inductive average : Type :=
| Binary   (* the default of recall_score, precision_score and f1_score *)
| Macro.   (* average='macro' *)

(** What [classifier.py] imports from scikit-learn.  [X] is a list of
    feature rows and [y] a list of integer labels.  [fit] receives its two
    arguments as Python passes them, [None] included, and returns the
    fitted estimator object. *)
Class Sklearn : Type := {
  Feature : Type;
  Predictor : Type;
  construct : estimator -> Predictor;
  fit : Predictor -> option (list Feature) -> option (list Z) -> result Predictor;
  predict : Predictor -> list Feature -> result (list Z);
  predict_proba : Predictor -> list Feature -> result (list (list Q));
  accuracy_score : list Z -> list Z -> result Q;
  recall_score : average -> list Z -> list Z -> result Q;
  precision_score : average -> list Z -> list Z -> result Q;
  f1_score : average -> list Z -> list Z -> result Q;
  roc_curve : list Z -> list Q -> result (list Q * list Q);
  auc : list Q -> list Q -> result Q;
  (** [StratifiedKFold(n_splits, shuffle).split(X, y)], drained. *)
  StratifiedKFold_split :
    nat -> bool -> list Feature -> list Z -> result (list (list nat * list nat))
}.

Definition SVC_balanced : estimator :=
  mkEstimator "SVC" [("class_weight", PStr "balanced"); ("probability", PBool true)].

(** The module-level dict [classifiers], in source order. *)
Definition classifiers : list (string * estimator) :=
  [ ("logistic_regression", mkEstimator "LogisticRegression" []);
    ("svm", SVC_balanced);
    ("linear_svm",
      mkEstimator "SVC" [("kernel", PStr "linear"); ("C", PNum (25 # 1000));
                         ("class_weight", PStr "balanced"); ("probability", PBool true)]);
    ("svm_rbf",
      mkEstimator "SVC" [("gamma", PInt 2); ("C", PInt 1); ("probability", PBool true)]);
    ("mlp",
      mkEstimator "MLPClassifier" [("alpha", PNum (1 # 100)); ("solver", PStr "adam")]);
    ("rf",
      mkEstimator "RandomForestClassifier"
        [("class_weight", PStr "balanced"); ("n_estimators", PInt 800);
         ("n_jobs", PInt (-1))]) ].

(** [d[key]] on a dict literal: [KeyError] when the key is absent. *)
Fixpoint dict_get {V : Type} (d : list (string * V)) (key : string) : result V :=
  match d with
  | [] => Err KeyError
  | (k, v) :: t => if String.eqb k key then Ok v else dict_get t key
  end.

(** ** Events *)

(** What a method does to the outside world: [logging.info(fmt, args)],
    [plt.plot(fpr, tpr, lw, color, label)] and [utils.show_roc_graph]. *)
Inductive event : Type :=
| Log (fmt : string) (args : list Q)
| Plot (fpr tpr : list Q) (lw : nat) (color : string) (fold_index : nat) (area : Q)
| ShowRocGraph (show_legend : bool).

(** The values logged under a format string, in order. *)
Definition values_of (fmt : string) (log : list event) : list Q :=
  flat_map (fun e => match e with
                     | Log f [v] => if String.eqb f fmt then [v] else []
                     | _ => []
                     end) log.

(** A Python running sum [s = 0; for v in l: s += v]. *)
Definition running_sum (l : list Q) : Q := fold_left Qplus l 0.

(** [a / n] for a float [a] and an int [n]. *)
Definition py_div (a : Q) (n : nat) : result Q :=
  if Nat.eqb n 0 then Err ZeroDivisionError else Ok (a / inject_Z (Z.of_nat n)).

Definition palette : list string :=
  ["cyan"; "indigo"; "seagreen"; "yellow"; "blue"; "darkorange"].

(** [np.array(probs)[:, 1]]: the second column of the matrix built from the
    rows in [probs].  An empty list gives a one-dimensional array, rows of
    different lengths give no matrix, and a matrix with fewer than two
    columns has no column 1. *)
Definition column1 (probs : list (list Q)) : result (list Q) :=
  match probs with
  | [] => Err IndexError
  | r :: _ =>
      if forallb (fun r' => Nat.eqb (length r') (length r)) probs
      then rmap (fun row => getitem row 1) probs
      else Err ValueError
  end.

(** ** The class [Classifier] *)

Section Classifier.

Context {sk : Sklearn}.

(** The attributes set by [__init__].  [colors] is the position reached in
    [cycle(palette)]; [cv] holds [n_splits] and [shuffle]. *)
Record Classifier : Type := mkClassifier {
  X : list Feature;
  y : list Z;
  items : option (list string);
  classifier_type : string;
  classifier : Predictor;
  feature_names : option (list string);
  binary_class : bool;
  colors : nat;
  line_width : nat;
  folds_num : nat;
  cv : nat * bool
}.

Definition set_classifier (self : Classifier) (p : Predictor) : Classifier :=
  mkClassifier (X self) (y self) (items self) (classifier_type self) p
    (feature_names self) (binary_class self) (colors self) (line_width self)
    (folds_num self) (cv self).

Definition set_colors (self : Classifier) (n : nat) : Classifier :=
  mkClassifier (X self) (y self) (items self) (classifier_type self)
    (classifier self) (feature_names self) (binary_class self) n
    (line_width self) (folds_num self) (cv self).

(** Attribute assignment [self.classifier_type = name] from outside. *)
Definition set_classifier_type (self : Classifier) (name : string) : Classifier :=
  mkClassifier (X self) (y self) (items self) name (classifier self)
    (feature_names self) (binary_class self) (colors self) (line_width self)
    (folds_num self) (cv self).

(** [Classifier(X, y, classifier_type, items, feature_names, binary_class)].
    The estimator is the instance stored in [classifiers]; that two objects
    built with the same name share this instance is not modelled: each
    object carries the state of its estimator. *)
Definition __init__ (X0 : list Feature) (y0 : list Z) (classifier_type0 : string)
    (items0 feature_names0 : option (list string)) (binary_class0 : bool)
    : result Classifier :=
  rbind (dict_get classifiers classifier_type0) (fun e =>
  let folds_num0 := 10%nat in
  Ok (mkClassifier X0 y0 items0 classifier_type0 (construct e) feature_names0
        binary_class0 0 2 folds_num0 (folds_num0, true))).

(** *** Methods as state transformers

    [M E A]: a method body that emits items of type [E] (events, or the
    values a generator yields) and returns an [A] or raises. *)
Definition M (E A : Type) : Type := Classifier -> Classifier * list E * result A.

Definition ret {E A : Type} (a : A) : M E A := fun s => (s, [], Ok a).

Definition bind {E A B : Type} (m : M E A) (k : A -> M E B) : M E B :=
  fun s =>
    match m s with
    | (s1, l1, Ok a) => let '(s2, l2, r) := k a s1 in (s2, l1 ++ l2, r)
    | (s1, l1, Err e) => (s1, l1, Err e)
    end.

Definition get {E : Type} : M E Classifier := fun s => (s, [], Ok s).
Definition put {E : Type} (s' : Classifier) : M E unit := fun _ => (s', [], Ok tt).
Definition emit {E : Type} (e : E) : M E unit := fun s => (s, [e], Ok tt).
Definition lift {E A : Type} (r : result A) : M E A := fun s => (s, [], r).

Notation "x <- m ;; k" := (bind m (fun x => k))
  (at level 61, m at next level, right associativity).
Notation "' p <- m ;; k" := (bind m (fun x => let p := x in k))
  (at level 61, p pattern, m at next level, right associativity).
Notation "m ;;; k" := (bind m (fun _ => k))
  (at level 61, right associativity).

(** A [for] loop that threads its local variables [acc] through the body. *)
Fixpoint for_each {E A S : Type} (body : S -> A -> M E S) (l : list A) (acc : S)
    : M E S :=
  match l with
  | [] => ret acc
  | a :: t => acc' <- body acc a ;; for_each body t acc'
  end.

(** [next(self.colors)]. *)
Definition next_color {E : Type} : M E string :=
  self <- get ;;
  put (set_colors self (S (colors self))) ;;;
  ret (nth (colors self mod length palette) palette EmptyString).

(** *** [Classifier.train] *)

Definition train {E : Type} (X_train : option (list Feature))
    (y_train : option (list Z)) : M E Predictor :=
  self <- get ;;
  let '(X_train, y_train) :=
    match X_train, y_train with
    | None, None => (Some (X self), Some (y self))
    | _, _ => (X_train, y_train)
    end in
  (if String.eqb (classifier_type self) "dnn"
   then ret tt  (* requires tensorflow *)
   else p <- lift (fit (classifier self) X_train y_train) ;;
        put (set_classifier self p)) ;;;
  self <- get ;;
  ret (classifier self).

(** *** [Classifier.evaluate] *)

(** The five accumulators of [evaluate]. *)
Record Sums : Type := mkSums {
  accuracy_sum : Q;
  recall_sum : Q;
  precision_sum : Q;
  f1_sum : Q;
  roc_auc_sum : Q
}.

Definition zero_sums : Sums := mkSums 0 0 0 0 0.

(** The body of the [for] loop of [evaluate], for one fold.  [zip] draws
    the fold first and the colour second. *)
Definition evaluate_fold (fold_index : nat) (sums : Sums)
    (fold : list nat * list nat) : M event Sums :=
  let '(train_index, test_index) := fold in
  color <- next_color ;;
  self <- get ;;
  X_train <- lift (take (X self) train_index) ;;
  X_test <- lift (take (X self) test_index) ;;
  y_train <- lift (take (y self) train_index) ;;
  y_test <- lift (take (y self) test_index) ;;
  train (Some X_train) (Some y_train) ;;;
  self <- get ;;
  y_pred <- lift (predict (classifier self) X_test) ;;
  if binary_class self then
    accuracy <- lift (accuracy_score y_test y_pred) ;;
    recall <- lift (recall_score Binary y_test y_pred) ;;
    precision <- lift (precision_score Binary y_test y_pred) ;;
    f1 <- lift (f1_score Binary y_test y_pred) ;;
    emit (Log "Accuracy: %.2f" [accuracy]) ;;;
    emit (Log "Recall: %.2f" [recall]) ;;;
    emit (Log "Precision: %.2f" [precision]) ;;;
    emit (Log "F-measure: %.2f" [f1]) ;;;
    probs <- lift (predict_proba (classifier self) X_test) ;;
    y_prob <- lift (column1 probs) ;;
    if Nat.eqb (length y_test) (length y_prob) then
      '(fpr, tpr) <- lift (roc_curve y_test y_prob) ;;
      roc_auc <- lift (auc fpr tpr) ;;
      emit (Log "AUC: %.2f" [roc_auc]) ;;;
      emit (Plot fpr tpr (line_width self) color fold_index roc_auc) ;;;
      ret (mkSums (accuracy_sum sums + accuracy) (recall_sum sums + recall)
             (precision_sum sums + precision) (f1_sum sums + f1)
             (roc_auc_sum sums + roc_auc))
    else
      ret (mkSums (accuracy_sum sums + accuracy) (recall_sum sums + recall)
             (precision_sum sums + precision) (f1_sum sums + f1)
             (roc_auc_sum sums))
  else
    recall <- lift (recall_score Macro y_test y_pred) ;;
    precision <- lift (precision_score Macro y_test y_pred) ;;
    f1 <- lift (f1_score Macro y_test y_pred) ;;
    emit (Log "Recall: %.2f" [recall]) ;;;
    emit (Log "Precision: %.2f" [precision]) ;;;
    emit (Log "F-measure: %.2f" [f1]) ;;;
    ret (mkSums (accuracy_sum sums) (recall_sum sums + recall)
           (precision_sum sums + precision) (f1_sum sums + f1)
           (roc_auc_sum sums)).

(** The lines after the loop: the averages, each a running sum divided by
    [self.folds_num]. *)
Definition report (sums : Sums) : M event unit :=
  self <- get ;;
  (if binary_class self then
     avg <- lift (py_div (accuracy_sum sums) (folds_num self)) ;;
     emit (Log "Avg. accuracy: %.2f" [avg])
   else ret tt) ;;;
  avg <- lift (py_div (recall_sum sums) (folds_num self)) ;;
  emit (Log "Avg. recall: %.2f" [avg]) ;;;
  avg <- lift (py_div (precision_sum sums) (folds_num self)) ;;
  emit (Log "Avg. precision: %.2f" [avg]) ;;;
  avg <- lift (py_div (f1_sum sums) (folds_num self)) ;;
  emit (Log "Avg. F-measure: %.2f" [avg]) ;;;
  if binary_class self then
    if Qlt_le_dec 0 (roc_auc_sum sums) then
      avg <- lift (py_div (roc_auc_sum sums) (folds_num self)) ;;
      emit (Log "Avg. AUC: %.2f" [avg]) ;;;
      emit (ShowRocGraph false)
    else ret tt
  else ret tt.

(** The loop of [evaluate]: the folds of [self.cv.split(self.X, self.y)] in
    order.  [fold_index] is [1] in every iteration: its increment comes
    after the loop and after the report. *)
Definition evaluate_loop : M event Sums :=
  self <- get ;;
  let fold_index := 1%nat in
  folds <- lift (StratifiedKFold_split (fst (cv self)) (snd (cv self))
                   (X self) (y self)) ;;
  for_each (evaluate_fold fold_index) folds zero_sums.

Definition evaluate : M event unit :=
  self <- get ;;
  emit (Log ("Evaluating " ++ classifier_type self ++ " classifier")%string []) ;;;
  sums <- evaluate_loop ;;
  report sums.

(** *** [Classifier.cross_validate] *)

(** [[idx for idx in index if labels[idx] >= 0]]. *)
Fixpoint known_labels (labels : list Z) (index : list nat) : result (list nat) :=
  match index with
  | [] => Ok []
  | idx :: t =>
      rbind (getitem labels idx) (fun l =>
      rbind (known_labels labels t) (fun t' =>
      Ok (if (0 <=? l)%Z then idx :: t' else t')))
  end.

(** One round of the generator: train a fresh SVC on the fold's known
    labels and yield it with the fold's test indices. *)
Definition cross_validate_fold (_ : unit) (fold : list nat * list nat)
    : M (Predictor * list nat) unit :=
  let '(train_index, test_index) := fold in
  color <- next_color ;;
  self <- get ;;
  (* remove unknowns from the training data *)
  train_index <- lift (known_labels (y self) train_index) ;;
  X_train <- lift (take (X self) train_index) ;;
  y_train <- lift (take (y self) train_index) ;;
  let classifier := construct SVC_balanced in
  model <- lift (fit classifier (Some X_train) (Some y_train)) ;;
  emit (model, test_index).

(** The generator run to exhaustion: the emitted items are the yielded
    pairs, in order; on an exception, the pairs yielded before it. *)
Definition cross_validate : M (Predictor * list nat) unit :=
  self <- get ;;
  folds <- lift (StratifiedKFold_split (fst (cv self)) (snd (cv self))
                   (X self) (y self)) ;;
  for_each cross_validate_fold folds tt.


(** *** Vocabulary of the statements *)

(** What [train] leaves behind once [fit] has answered. *)
Definition after_fit {E : Type} (self : Classifier) (r : result Predictor)
    : Classifier * list E * result Predictor :=
  match r with
  | Ok p => (set_classifier self p, [], Ok p)
  | Err e => (self, [], Err e)
  end.

(** The four lines a binary-mode fold logs before the ROC curve. *)
Definition binary_lines (accuracy recall precision f1 : Q) : list event :=
  [Log "Accuracy: %.2f" [accuracy]; Log "Recall: %.2f" [recall];
   Log "Precision: %.2f" [precision]; Log "F-measure: %.2f" [f1]].

(** The three lines a multiclass-mode fold logs. *)
Definition macro_lines (recall precision f1 : Q) : list event :=
  [Log "Recall: %.2f" [recall]; Log "Precision: %.2f" [precision];
   Log "F-measure: %.2f" [f1]].

(** Two states of the object that differ at most in the estimator and in
    the position of the colour cycle. *)
Definition same_setup (s s' : Classifier) : Prop :=
  X s' = X s /\ y s' = y s /\ classifier_type s' = classifier_type s /\
  binary_class s' = binary_class s /\ line_width s' = line_width s /\
  folds_num s' = folds_num s /\ cv s' = cv s.

(** The running sums [sums'] are the sums [sums] plus the values logged in
    [log], added in the order of the log. *)
Definition sums_track (log : list event) (sums sums' : Sums) : Prop :=
  accuracy_sum sums' =
    fold_left Qplus (values_of "Accuracy: %.2f" log) (accuracy_sum sums) /\
  recall_sum sums' =
    fold_left Qplus (values_of "Recall: %.2f" log) (recall_sum sums) /\
  precision_sum sums' =
    fold_left Qplus (values_of "Precision: %.2f" log) (precision_sum sums) /\
  f1_sum sums' =
    fold_left Qplus (values_of "F-measure: %.2f" log) (f1_sum sums) /\
  roc_auc_sum sums' =
    fold_left Qplus (values_of "AUC: %.2f" log) (roc_auc_sum sums).

Definition fold_formats : list string :=
  ["Accuracy: %.2f"; "Recall: %.2f"; "Precision: %.2f"; "F-measure: %.2f";
   "AUC: %.2f"].

Definition average_formats : list string :=
  ["Avg. accuracy: %.2f"; "Avg. recall: %.2f"; "Avg. precision: %.2f";
   "Avg. F-measure: %.2f"; "Avg. AUC: %.2f"].

(** [a / k] as the report computes it. *)
Definition mean (a : Q) (k : nat) : Q := a / inject_Z (Z.of_nat k).

(** The events of [report] when no division fails. *)
Definition report_lines (binary : bool) (k : nat) (sums : Sums) : list event :=
  (if binary then [Log "Avg. accuracy: %.2f" [mean (accuracy_sum sums) k]] else []) ++
  [Log "Avg. recall: %.2f" [mean (recall_sum sums) k];
   Log "Avg. precision: %.2f" [mean (precision_sum sums) k];
   Log "Avg. F-measure: %.2f" [mean (f1_sum sums) k]] ++
  (if binary then
     if Qlt_le_dec 0 (roc_auc_sum sums)
     then [Log "Avg. AUC: %.2f" [mean (roc_auc_sum sums) k]; ShowRocGraph false]
     else []
   else []).

(** Every score the metric functions return is in [[0, 1]]. *)
Definition scores_in_unit_interval : Prop :=
  (forall a b v, accuracy_score a b = Ok v -> 0 <= v <= 1) /\
  (forall av a b v, recall_score av a b = Ok v -> 0 <= v <= 1) /\
  (forall av a b v, precision_score av a b = Ok v -> 0 <= v <= 1) /\
  (forall av a b v, f1_score av a b = Ok v -> 0 <= v <= 1).

(** [b] is [a] plus at most [n] scores of [[0, 1]]. *)
Definition grown_by (n : nat) (a b : Q) : Prop :=
  a <= b <= a + inject_Z (Z.of_nat n).

(** How a yielded pair comes from a fold of the planner: the model is a
    fresh balanced SVC fitted on the rows and labels at [kept], the fold's
    training indices that pass the filter of [cross_validate]. *)
Definition yielded_from (rows : list Feature) (labels : list Z)
    (fold : list nat * list nat) (kept : list nat)
    (yielded : Predictor * list nat) : Prop :=
  known_labels labels (fst fold) = Ok kept /\
  exists X_train y_train,
    take rows kept = Ok X_train /\
    take labels kept = Ok y_train /\
    fit (construct SVC_balanced) (Some X_train) (Some y_train) = Ok (fst yielded) /\
    snd yielded = snd fold.

(** Every run of [m], completed or not, relates the states before and
    after by [R] and emits only items that satisfy [P]. *)
Definition run_inv {E A : Type} (R : Classifier -> Classifier -> Prop)
    (P : E -> Prop) (m : M E A) : Prop :=
  forall s s' log r, m s = (s', log, r) -> R s s' /\ Forall P log.

(** A ROC line is labelled with fold [1] and the graph is shown without
    legend. *)
Definition labelled_fold_1 (e : event) : Prop :=
  match e with
  | Plot _ _ _ _ fold_index _ => fold_index = 1%nat
  | ShowRocGraph show_legend => show_legend = false
  | Log _ _ => True
  end.

(** Neither an averaged value nor the call that shows the graph. *)
Definition no_report (e : event) : Prop :=
  match e with
  | Log fmt [_] => ~ In fmt average_formats
  | ShowRocGraph _ => False
  | _ => True
  end.

(** One line per fold and metric; the accuracy only in binary mode. *)
Definition one_line_per_fold (binary : bool) (n : nat) (log : list event) : Prop :=
  length (values_of "Recall: %.2f" log) = n /\
  length (values_of "Precision: %.2f" log) = n /\
  length (values_of "F-measure: %.2f" log) = n /\
  length (values_of "Accuracy: %.2f" log) = (if binary then n else 0%nat) /\
  (length (values_of "AUC: %.2f" log) <= (if binary then n else 0))%nat.

(** Two states of the object that differ at most in the position of the
    colour cycle, which has not gone back. *)
Definition same_but_colors (s s' : Classifier) : Prop :=
  X s' = X s /\ y s' = y s /\ items s' = items s /\
  classifier_type s' = classifier_type s /\ classifier s' = classifier s /\
  feature_names s' = feature_names s /\ binary_class s' = binary_class s /\
  line_width s' = line_width s /\ folds_num s' = folds_num s /\ cv s' = cv s /\
  (colors s <= colors s')%nat.

End Classifier.

(** ** The fold planner *)

Module FoldPlanner.

Section Split.

(** The reordering a shuffling planner applies to the members of a class;
    any permutation may come out of the random generator. *)
Variable shuffle_order : list nat -> list nat.

(** Number of members of class [c] in the label vector. *)
Definition class_size (labels : list Z) (c : Z) : nat :=
  count_occ Z.eq_dec labels c.

(** The classes present in the label vector. *)
Definition classes (labels : list Z) : list Z := nodup Z.eq_dec labels.

(** The indices labelled [c], ascending. *)
Definition members (labels : list Z) (c : Z) : list nat :=
  filter (fun i => Z.eqb (nth i labels 0%Z) c) (seq 0 (length labels)).

(** The members of a class in the order the planner deals them. *)
Definition dealt (labels : list Z) (shuffle : bool) (c : Z) : list nat :=
  if shuffle then shuffle_order (members labels c) else members labels c.

(** Deal the members of one class to the folds in turn, starting at fold
    [j]: pairs of an index and its test fold. *)
Fixpoint deal (k j : nat) (l : list nat) : list (nat * nat) :=
  match l with
  | [] => []
  | i :: t => (i, j mod k) :: deal k (S j) t
  end.

Definition assignment (labels : list Z) (k : nat) (shuffle : bool)
    : list (nat * nat) :=
  flat_map (fun c => deal k 0 (dealt labels shuffle c)) (classes labels).

Definition test_indices (asg : list (nat * nat)) (i : nat) : list nat :=
  map fst (filter (fun p => Nat.eqb (snd p) i) asg).

Definition train_indices (asg : list (nat * nat)) (i : nat) : list nat :=
  map fst (filter (fun p => negb (Nat.eqb (snd p) i)) asg).

(** Modelled from the spec: the stratified k-fold generator
    ([StratifiedKFold(n_splits=k, shuffle).split(X, y)] in the source) is
    scikit-learn's and its code is not in the repository.  This is the
    contract of section 4.2: [split(X, y, k, shuffle)] returns [k] pairs
    [(train_indices, test_indices)], each class dealt evenly over the test
    sets, and fails with [InsufficientSamplesError] if any class has fewer
    members than [k]. *)
Definition split {F : Type} (rows : list F) (labels : list Z) (k : nat)
    (shuffle : bool) : result (list (list nat * list nat)) :=
  if existsb (fun c => Nat.ltb (class_size labels c) k) (classes labels)
  then Err InsufficientSamplesError
  else
    let asg := assignment labels k shuffle in
    Ok (map (fun i => (train_indices asg i, test_indices asg i)) (seq 0 k)).

End Split.

End FoldPlanner.

(** ** A small instance of the scikit-learn interface

    A stand-in for scikit-learn on which the model runs: features are
    integers, a fitted estimator remembers its training labels, [predict]
    answers by the sign of the feature and [predict_proba] emits no row for
    the feature value [7].  The fold generator is [FoldPlanner.split] with
    reversal as its shuffle. *)
Module Toy.

Definition toy_fit (p : option (list Z)) (rows : option (list Z))
    (labels : option (list Z)) : result (option (list Z)) :=
  match rows, labels with
  | Some _, Some l => Ok (Some l)
  | _, _ => Err TypeError
  end.

Definition toy_predict (p : option (list Z)) (rows : list Z) : result (list Z) :=
  match p with
  | None => Err NotFittedError
  | Some _ => Ok (map (fun x => if (0 <? x)%Z then 1%Z else 0%Z) rows)
  end.

Definition toy_predict_proba (p : option (list Z)) (rows : list Z)
    : result (list (list Q)) :=
  match p with
  | None => Err NotFittedError
  | Some _ =>
      Ok (map (fun _ => [1 # 4; 3 # 4]) (filter (fun x => negb (x =? 7)%Z) rows))
  end.

Definition toy_score (av : average) (y_true y_pred : list Z) : result Q :=
  match av with
  | Binary => Ok (1 # 2)
  | Macro => Ok (1 # 4)
  end.

Definition sklearn : Sklearn := {|
  Feature := Z;
  Predictor := option (list Z);
  construct := fun _ => None;
  fit := toy_fit;
  predict := toy_predict;
  predict_proba := toy_predict_proba;
  accuracy_score := fun _ _ => Ok 1;
  recall_score := toy_score;
  precision_score := toy_score;
  f1_score := toy_score;
  roc_curve := fun _ _ => Ok ([0; 1], [0; 1]);
  auc := fun _ _ => Ok (3 # 4);
  StratifiedKFold_split := fun k shuffle rows labels =>
    FoldPlanner.split (@rev nat) rows labels k shuffle
|}.

(** Twenty points, ten per class; the point with feature [7] is the one
    [predict_proba] drops. *)
Definition rows20 : list Z :=
  [1; 2; 3; 4; 5; 6; 7; 8; 9; 10; -1; -2; -3; -4; -5; -6; -7; -8; -9; -10]%Z.

Definition labels20 : list Z :=
  [1; 1; 1; 1; 1; 1; 1; 1; 1; 1; 0; 0; 0; 0; 0; 0; 0; 0; 0; 0]%Z.

(** Thirty points: as above, and ten more whose label is unknown ([-1]). *)
Definition rows30 : list Z :=
  rows20 ++ [11; 12; 13; 14; 15; 16; 17; 18; 19; 20]%Z.

Definition labels30 : list Z :=
  labels20 ++ [-1; -1; -1; -1; -1; -1; -1; -1; -1; -1]%Z.

(** Fourteen points whose class [1] has three members only. *)
Definition labels14 : list Z := [1; 1; 1; 0; 0; 0; 0; 0; 0; 0; 0; 0; 0; 0]%Z.

(** The object [__init__] builds for a registered name. *)
Definition fresh (rows labels : list Z) (name : string) (binary : bool)
    : @Classifier sklearn :=
  @mkClassifier sklearn rows labels None name None None binary 0 2 10 (10%nat, true).

Definition binary20 : @Classifier sklearn := fresh rows20 labels20 "svm" true.
Definition multiclass20 : @Classifier sklearn := fresh rows20 labels20 "svm" false.
Definition unknown30 : @Classifier sklearn := fresh rows30 labels30 "svm" true.

(** [binary20] after [self.classifier_type = 'dnn']. *)
Definition dnn20 : @Classifier sklearn := set_classifier_type binary20 "dnn".

(** The fourth fold the planner yields for [labels20]: its test set holds
    index [6], whose feature is [7]. *)
Definition fold4 : list nat * list nat :=
  ([9; 8; 7; 5; 4; 3; 2; 1; 0; 19; 18; 17; 15; 14; 13; 12; 11; 10]%nat,
   [6; 16]%nat).


(** The folds the planner yields for [labels20]. *)
Definition folds20 : list (list nat * list nat) :=
  match FoldPlanner.split (@rev nat) rows20 labels20 10 true with
  | Ok folds => folds
  | Err _ => []
  end.

End Toy.

(** * Properties

    ** The monad of methods and [Classifier.train] *)

Section MethodFacts.

Context {sk : Sklearn}.

Lemma bind_ok_inv {E A B : Type} (m : M E A) (k : A -> M E B) s s' log b :
  bind m k s = (s', log, Ok b) ->
  exists s1 l1 a l2,
    m s = (s1, l1, Ok a) /\ k a s1 = (s', l2, Ok b) /\ log = l1 ++ l2.
Proof.
  unfold bind. intros H.
  destruct (m s) as [[s1 l1] [a | e]]; [| discriminate].
  destruct (k a s1) as [[s2 l2] r] eqn:Hk.
  inversion H; subst.
  exists s1, l1, a, l2. auto.
Qed.

Lemma lift_ok_inv {E A : Type} (r : result A) s s' (log : list E) a :
  lift r s = (s', log, Ok a) -> r = Ok a /\ s' = s /\ log = [].
Proof. unfold lift. intros H. inversion H; subst. auto. Qed.

Lemma for_each_nil {E A S : Type} (body : S -> A -> M E S) acc s :
  for_each body [] acc s = (s, [], Ok acc).
Proof. reflexivity. Qed.

Lemma for_each_cons_ok {E A S : Type} (body : S -> A -> M E S) a t acc s s' log acc' :
  for_each body (a :: t) acc s = (s', log, Ok acc') ->
  exists s1 l1 acc1 l2,
    body acc a s = (s1, l1, Ok acc1) /\
    for_each body t acc1 s1 = (s', l2, Ok acc') /\
    log = l1 ++ l2.
Proof. cbn [for_each]. apply bind_ok_inv. Qed.

Lemma emit_ok_inv {E : Type} (e : E) s s' log u :
  emit e s = (s', log, Ok u) -> s' = s /\ log = [e].
Proof. unfold emit. intros H. inversion H; subst. auto. Qed.

Lemma get_ok_inv {E : Type} s s' (log : list E) a :
  get s = (s', log, Ok a) -> a = s /\ s' = s /\ log = [].
Proof. unfold get. intros H. inversion H; subst. auto. Qed.

Lemma ret_ok_inv {E A : Type} (a : A) s s' (log : list E) b :
  ret a s = (s', log, Ok b) -> b = a /\ s' = s /\ log = [].
Proof. unfold ret. intros H. inversion H; subst. auto. Qed.

Lemma next_color_run {E : Type} (s : Classifier) :
  @next_color sk E s =
  (set_colors s (S (colors s)), [], Ok (nth (colors s mod length palette) palette EmptyString)).
Proof. reflexivity. Qed.

Ltac bind_inv H :=
  let s1 := fresh "s" in let l1 := fresh "l" in let a := fresh "a" in
  let l2 := fresh "l" in let H1 := fresh "H" in let HL := fresh "HL" in
  apply bind_ok_inv in H; destruct H as (s1 & l1 & a & l2 & H1 & H & HL);
  lazymatch type of H1 with
  | get _ = _ => apply get_ok_inv in H1; destruct H1 as (-> & -> & ->)
  | emit _ _ = _ => apply emit_ok_inv in H1; destruct H1 as (-> & ->)
  | lift _ _ = _ => apply lift_ok_inv in H1; destruct H1 as (H1 & -> & ->)
  | _ => idtac
  end;
  cbn [app] in HL; subst.

Lemma train_fits {E : Type} (s : Classifier) X_train y_train :
  classifier_type s <> "dnn" ->
  @train sk E X_train y_train s =
  after_fit s
    (match X_train, y_train with
     | None, None => fit (classifier s) (Some (X s)) (Some (y s))
     | _, _ => fit (classifier s) X_train y_train
     end).
Proof.
  intros Hd. apply String.eqb_neq in Hd.
  unfold train, bind, get, lift, put, ret, after_fit.
  destruct X_train, y_train; cbn; rewrite Hd;
    match goal with |- context [fit ?p ?a ?b] => destruct (fit p a b) end;
    reflexivity.
Qed.

(** ['dnn'] is no key of [classifiers]: the constructor refuses it. *)
Lemma init_dnn_KeyError X0 y0 items0 feature_names0 binary_class0 :
  __init__ X0 y0 "dnn" items0 feature_names0 binary_class0 = Err KeyError.
Proof. reflexivity. Qed.

Lemma train_skips_dnn {E : Type} (s : Classifier) X_train y_train :
  classifier_type s = "dnn" ->
  @train sk E X_train y_train s = (s, [], Ok (classifier s)).
Proof.
  intros Hd. apply String.eqb_eq in Hd.
  unfold train, bind, get, lift, put, ret.
  destruct X_train, y_train; cbn; rewrite Hd; reflexivity.
Qed.

(** C1 (amended).  When [classifier_type] is ['dnn'], [train] raises
    nothing: it calls no [fit], leaves the object as it is, emits nothing
    and returns the estimator the object holds. *)
Theorem train_dnn_returns_held_estimator
    (s : Classifier) (X_train : option (list Feature)) (y_train : option (list Z)) :
  classifier_type s = "dnn" ->
  @train sk event X_train y_train s = (s, [], Ok (classifier s)).
Proof. apply train_skips_dnn. Qed.

(** C10. [train] replaces its arguments by the data of the object only
    when both are [None]; when one of them is [None] and the other is not,
    [fit] receives the two arguments as they were passed. *)
Theorem train_falls_back_only_when_both_None
    (s : Classifier) (rows : list Feature) (labels : list Z) :
  classifier_type s <> "dnn" ->
  @train sk event None None s =
    after_fit s (fit (classifier s) (Some (X s)) (Some (y s))) /\
  @train sk event (Some rows) None s =
    after_fit s (fit (classifier s) (Some rows) None) /\
  @train sk event None (Some labels) s =
    after_fit s (fit (classifier s) None (Some labels)) /\
  @train sk event (Some rows) (Some labels) s =
    after_fit s (fit (classifier s) (Some rows) (Some labels)).
Proof.
  intros Hd. repeat split; rewrite (train_fits s _ _ Hd); reflexivity.
Qed.

(** ** [Classifier.evaluate] *)

Lemma same_setup_refl s : same_setup s s.
Proof. repeat split. Qed.

Lemma same_setup_trans s1 s2 s3 : same_setup s1 s2 -> same_setup s2 s3 -> same_setup s1 s3.
Proof. unfold same_setup. intuition congruence. Qed.

Lemma train_frame {E : Type} Xo yo s s' (l : list E) r :
  @train sk E Xo yo s = (s', l, r) -> l = [] /\ same_setup s s'.
Proof.
  destruct (String.eqb_spec (classifier_type s) "dnn") as [Hd | Hd].
  - rewrite (train_skips_dnn s Xo yo Hd). intros H; inversion H; subst.
    split; [reflexivity | apply same_setup_refl].
  - rewrite (train_fits s Xo yo Hd). unfold after_fit.
    match goal with |- context [match ?r with Ok _ => _ | Err _ => _ end] => destruct r end;
      intros H; inversion H; subst; split; try reflexivity; repeat split.
Qed.

Lemma evaluate_fold_ok fi sums train_index test_index s s' log sums' :
  evaluate_fold fi sums (train_index, test_index) s = (s', log, Ok sums') ->
  exists X_train X_test y_train y_test p y_pred,
    take (X s) train_index = Ok X_train /\
    take (X s) test_index = Ok X_test /\
    take (y s) train_index = Ok y_train /\
    take (y s) test_index = Ok y_test /\
    @train sk event (Some X_train) (Some y_train) (set_colors s (S (colors s)))
      = (s', [], Ok p) /\
    predict (classifier s') X_test = Ok y_pred /\
    if binary_class s then
      exists accuracy recall precision f1 probs y_prob,
        accuracy_score y_test y_pred = Ok accuracy /\
        recall_score Binary y_test y_pred = Ok recall /\
        precision_score Binary y_test y_pred = Ok precision /\
        f1_score Binary y_test y_pred = Ok f1 /\
        predict_proba (classifier s') X_test = Ok probs /\
        column1 probs = Ok y_prob /\
        if Nat.eqb (length y_test) (length y_prob) then
          exists fpr tpr roc_auc,
            roc_curve y_test y_prob = Ok (fpr, tpr) /\
            auc fpr tpr = Ok roc_auc /\
            log = binary_lines accuracy recall precision f1 ++
                  [Log "AUC: %.2f" [roc_auc];
                   Plot fpr tpr (line_width s)
                     (nth (colors s mod length palette) palette EmptyString) fi roc_auc] /\
            sums' = mkSums (accuracy_sum sums + accuracy) (recall_sum sums + recall)
                      (precision_sum sums + precision) (f1_sum sums + f1)
                      (roc_auc_sum sums + roc_auc)
        else
          log = binary_lines accuracy recall precision f1 /\
          sums' = mkSums (accuracy_sum sums + accuracy) (recall_sum sums + recall)
                    (precision_sum sums + precision) (f1_sum sums + f1)
                    (roc_auc_sum sums)
    else
      exists recall precision f1,
        recall_score Macro y_test y_pred = Ok recall /\
        precision_score Macro y_test y_pred = Ok precision /\
        f1_score Macro y_test y_pred = Ok f1 /\
        log = macro_lines recall precision f1 /\
        sums' = mkSums (accuracy_sum sums) (recall_sum sums + recall)
                  (precision_sum sums + precision) (f1_sum sums + f1)
                  (roc_auc_sum sums).
Proof.
  intros H. unfold evaluate_fold in H.
  bind_inv H.
  rewrite next_color_run in H0. inversion H0; subst; clear H0.
  do 5 bind_inv H.
  cbn [X y set_colors] in *.
  bind_inv H. destruct (train_frame _ _ _ _ _ _ H4) as (-> & Hsame).
  do 2 bind_inv H.
  destruct Hsame as (_ & _ & _ & Hb & Hlw & _). cbn in Hb, Hlw.
  rewrite Hb in H.
  destruct (binary_class s).
  - do 10 bind_inv H.
    match type of H with
    | context [Nat.eqb ?n ?m] => destruct (Nat.eqb n m) eqn:Hlen
    end.
    + bind_inv H.
      match goal with Hr : roc_curve _ _ = Ok ?p |- _ => destruct p as [fpr tpr] end.
      do 3 bind_inv H.
      apply ret_ok_inv in H. destruct H as (-> & -> & ->).
      do 6 eexists. repeat (split; [eassumption |]).
      do 6 eexists. repeat (split; [eassumption |]).
      rewrite Hlen. do 3 eexists. rewrite Hlw.
      repeat (split; [eassumption |]). split; reflexivity.
    + apply ret_ok_inv in H. destruct H as (-> & -> & ->).
      do 6 eexists. repeat (split; [eassumption |]).
      do 6 eexists. repeat (split; [eassumption |]).
      rewrite Hlen. split; reflexivity.
  - do 6 bind_inv H.
    apply ret_ok_inv in H. destruct H as (-> & -> & ->).
    do 6 eexists. repeat (split; [eassumption |]).
    do 3 eexists. repeat (split; [eassumption |]). split; reflexivity.
Qed.

Lemma evaluate_fold_frame fi sums fold s s' log sums' :
  evaluate_fold fi sums fold s = (s', log, Ok sums') -> same_setup s s'.
Proof.
  destruct fold as [tr te]. intros H.
  destruct (evaluate_fold_ok _ _ _ _ _ _ _ _ H)
    as (Xtr & Xte & ytr & yte & p & yp & _ & _ & _ & _ & Ht & _).
  destruct (train_frame _ _ _ _ _ _ Ht) as (_ & Hs).
  unfold same_setup in *. cbn in Hs. exact Hs.
Qed.

Lemma values_of_app fmt l1 l2 :
  values_of fmt (l1 ++ l2) = values_of fmt l1 ++ values_of fmt l2.
Proof. unfold values_of. apply flat_map_app. Qed.

Lemma evaluate_fold_tracks fi sums fold s s' log sums' :
  evaluate_fold fi sums fold s = (s', log, Ok sums') ->
  sums_track log sums sums' /\
  (forall fmt, In fmt average_formats -> values_of fmt log = []) /\
  (binary_class s = false ->
   values_of "Accuracy: %.2f" log = [] /\ values_of "AUC: %.2f" log = []).
Proof.
  destruct fold as [tr te]. intros H.
  destruct (evaluate_fold_ok _ _ _ _ _ _ _ _ H)
    as (Xtr & Xte & ytr & yte & p & yp & _ & _ & _ & _ & _ & _ & Hm).
  destruct (binary_class s).
  - destruct Hm as (a & r & pr & f & probs & yprob & _ & _ & _ & _ & _ & _ & Hm).
    destruct (Nat.eqb (length yte) (length yprob)).
    + destruct Hm as (fpr & tpr & v & _ & _ & -> & ->).
      split; [repeat split |].
      split; [| discriminate].
      intros fmt Hf. cbn in Hf.
      repeat (destruct Hf as [<- | Hf]; [reflexivity |]). contradiction.
    + destruct Hm as (-> & ->).
      split; [repeat split |].
      split; [| discriminate].
      intros fmt Hf. cbn in Hf.
      repeat (destruct Hf as [<- | Hf]; [reflexivity |]). contradiction.
  - destruct Hm as (r & pr & f & _ & _ & _ & -> & ->).
    split; [repeat split |].
    split; [| intros _; split; reflexivity].
    intros fmt Hf. cbn in Hf.
    repeat (destruct Hf as [<- | Hf]; [reflexivity |]). contradiction.
Qed.

Lemma sums_track_app l1 l2 a b c :
  sums_track l1 a b -> sums_track l2 b c -> sums_track (l1 ++ l2) a c.
Proof.
  unfold sums_track. intros (A1 & A2 & A3 & A4 & A5) (B1 & B2 & B3 & B4 & B5).
  rewrite !values_of_app, !fold_left_app.
  rewrite <- A1, <- A2, <- A3, <- A4, <- A5. auto.
Qed.

Lemma evaluate_loop_tracks fi folds : forall sums s s' log sums',
  for_each (evaluate_fold fi) folds sums s = (s', log, Ok sums') ->
  same_setup s s' /\
  sums_track log sums sums' /\
  (forall fmt, In fmt average_formats -> values_of fmt log = []) /\
  (binary_class s = false ->
   values_of "Accuracy: %.2f" log = [] /\ values_of "AUC: %.2f" log = []).
Proof.
  induction folds as [| fold folds IH]; intros sums s s' log sums' H.
  - rewrite for_each_nil in H. inversion H; subst.
    split; [apply same_setup_refl |]. split; [repeat split |].
    split; [reflexivity | split; reflexivity].
  - apply for_each_cons_ok in H.
    destruct H as (s1 & l1 & sums1 & l2 & Hb & Hr & ->).
    pose proof (evaluate_fold_frame _ _ _ _ _ _ _ Hb) as Hf1.
    destruct (evaluate_fold_tracks _ _ _ _ _ _ _ Hb) as (T1 & N1 & M1).
    destruct (IH _ _ _ _ _ Hr) as (Hf2 & T2 & N2 & M2).
    split; [eapply same_setup_trans; eassumption |].
    split; [eapply sums_track_app; eassumption |].
    split.
    + intros fmt Hfmt. rewrite values_of_app, (N1 _ Hfmt), (N2 _ Hfmt). reflexivity.
    + intros Hmc.
      assert (Hmc1 : binary_class s1 = false).
      { destruct Hf1 as (_ & _ & _ & Hbc & _). congruence. }
      destruct (M1 Hmc) as (E1 & E2). destruct (M2 Hmc1) as (E3 & E4).
      rewrite !values_of_app, E1, E2, E3, E4. split; reflexivity.
Qed.

Lemma py_div_ok a n v : py_div a n = Ok v -> n <> 0%nat /\ v = mean a n.
Proof.
  unfold py_div, mean. destruct (Nat.eqb_spec n 0); [discriminate |].
  intros H; inversion H; auto.
Qed.

Lemma report_ok sums s s' log u :
  report sums s = (s', log, Ok u) ->
  folds_num s <> 0%nat /\ s' = s /\
  log = report_lines (binary_class s) (folds_num s) sums.
Proof.
  intros H. unfold report in H. bind_inv H.
  unfold report_lines.
  destruct (binary_class s).
  - bind_inv H. bind_inv H0. apply emit_ok_inv in H0. destruct H0 as (-> & ->).
    do 6 bind_inv H.
    repeat match goal with
           | Hd : py_div _ _ = Ok _ |- _ => apply py_div_ok in Hd; destruct Hd as (? & ->)
           end.
    destruct (Qlt_le_dec 0 (roc_auc_sum sums)).
    + do 2 bind_inv H.
      match goal with
      | Hd : py_div _ _ = Ok _ |- _ => apply py_div_ok in Hd; destruct Hd as (_ & ->)
      end.
      apply emit_ok_inv in H. destruct H as (-> & ->). auto.
    + apply ret_ok_inv in H. destruct H as (_ & -> & ->). auto.
  - bind_inv H. apply ret_ok_inv in H0. destruct H0 as (_ & -> & ->).
    do 6 bind_inv H.
    repeat match goal with
           | Hd : py_div _ _ = Ok _ |- _ => apply py_div_ok in Hd; destruct Hd as (? & ->)
           end.
    apply ret_ok_inv in H. destruct H as (_ & -> & ->). auto.
Qed.

Lemma evaluate_ok s s' log u :
  evaluate s = (s', log, Ok u) ->
  exists folds s1 loop_log sums,
    StratifiedKFold_split (fst (cv s)) (snd (cv s)) (X s) (y s) = Ok folds /\
    for_each (evaluate_fold 1) folds zero_sums s = (s1, loop_log, Ok sums) /\
    report sums s1 = (s', report_lines (binary_class s) (folds_num s) sums, Ok u) /\
    folds_num s <> 0%nat /\
    log = Log ("Evaluating " ++ classifier_type s ++ " classifier")%string [] ::
          loop_log ++ report_lines (binary_class s) (folds_num s) sums.
Proof.
  intros H. unfold evaluate in H.
  do 2 bind_inv H. bind_inv H.
  unfold evaluate_loop in H0. do 2 bind_inv H0.
  destruct (evaluate_loop_tracks _ _ _ _ _ _ _ H0) as ((_ & _ & _ & Hb & _ & Hk & _) & _).
  destruct (report_ok _ _ _ _ _ H) as (Hnz & Hs & Hl).
  rewrite Hl in H. rewrite Hb, Hk in *. subst.
  do 4 eexists. repeat (split; [eassumption |]). reflexivity.
Qed.

Lemma evaluate_log_values s s' log u :
  evaluate s = (s', log, Ok u) ->
  exists folds s1 loop_log sums,
    StratifiedKFold_split (fst (cv s)) (snd (cv s)) (X s) (y s) = Ok folds /\
    for_each (evaluate_fold 1) folds zero_sums s = (s1, loop_log, Ok sums) /\
    folds_num s <> 0%nat /\
    (forall fmt, In fmt average_formats ->
       values_of fmt log = values_of fmt (report_lines (binary_class s) (folds_num s) sums)) /\
    (forall fmt, In fmt fold_formats -> values_of fmt log = values_of fmt loop_log).
Proof.
  intros H. apply evaluate_ok in H.
  destruct H as (folds & s1 & loop_log & sums & Hsp & Hloop & _ & Hnz & ->).
  exists folds, s1, loop_log, sums. repeat (split; [assumption |]).
  destruct (evaluate_loop_tracks _ _ _ _ _ _ _ Hloop) as (_ & _ & Hna & _).
  split; intros fmt Hf.
  - change (Log ?a ?b :: ?l) with ([Log a b] ++ l).
    rewrite !values_of_app, (Hna _ Hf). reflexivity.
  - change (Log ?a ?b :: ?l) with ([Log a b] ++ l).
    rewrite !values_of_app. cbn [values_of flat_map app].
    cbn in Hf. unfold report_lines.
    repeat (destruct Hf as [<- | Hf];
            [destruct (binary_class s); [destruct (Qlt_le_dec 0 (roc_auc_sum sums)) |];
             cbn; rewrite ?app_nil_r; reflexivity |]).
    contradiction.
Qed.

(** C3. After the loop of [evaluate], every average that is reported is the
    running sum of the values logged for that metric divided by
    [self.folds_num], whatever the number of folds that logged a value: the
    averaged AUC divides the sum of the AUC values of the folds that
    computed one by [folds_num] too. *)
Theorem evaluate_averages_divide_by_folds_num (s s' : Classifier) (log : list event) :
  evaluate s = (s', log, Ok tt) ->
  values_of "Avg. recall: %.2f" log =
    [running_sum (values_of "Recall: %.2f" log) / inject_Z (Z.of_nat (folds_num s))] /\
  values_of "Avg. precision: %.2f" log =
    [running_sum (values_of "Precision: %.2f" log) / inject_Z (Z.of_nat (folds_num s))] /\
  values_of "Avg. F-measure: %.2f" log =
    [running_sum (values_of "F-measure: %.2f" log) / inject_Z (Z.of_nat (folds_num s))] /\
  values_of "Avg. accuracy: %.2f" log =
    (if binary_class s
     then [running_sum (values_of "Accuracy: %.2f" log) / inject_Z (Z.of_nat (folds_num s))]
     else []) /\
  values_of "Avg. AUC: %.2f" log =
    (if binary_class s
     then if Qlt_le_dec 0 (running_sum (values_of "AUC: %.2f" log))
          then [running_sum (values_of "AUC: %.2f" log) / inject_Z (Z.of_nat (folds_num s))]
          else []
     else []).
Proof.
  intros H. apply evaluate_log_values in H.
  destruct H as (folds & s1 & loop_log & sums & _ & Hloop & _ & Havg & Hfold).
  destruct (evaluate_loop_tracks _ _ _ _ _ _ _ Hloop)
    as (_ & (Ta & Tr & Tp & Tf & Tu) & _ & _).
  cbn [zero_sums accuracy_sum recall_sum precision_sum f1_sum roc_auc_sum] in *.
  repeat match goal with
         | |- context [values_of ?f log] =>
             first [rewrite (Havg f) by (cbn; tauto) | rewrite (Hfold f) by (cbn; tauto)]
         end.
  unfold running_sum. rewrite <- Ta, <- Tr, <- Tp, <- Tf, <- Tu.
  unfold report_lines, mean.
  destruct (binary_class s); [destruct (Qlt_le_dec 0 (roc_auc_sum sums)) |];
    repeat split; reflexivity.
Qed.

Lemma inject_succ n : inject_Z (Z.of_nat (S n)) == inject_Z (Z.of_nat n) + 1.
Proof. rewrite Nat2Z.inj_succ. unfold Z.succ. rewrite inject_Z_plus. reflexivity. Qed.

Lemma grown_by_refl a : grown_by 0 a a.
Proof. unfold grown_by. change (inject_Z (Z.of_nat 0)) with 0. lra. Qed.

Lemma grown_by_step n a b c : grown_by 1 a b -> grown_by n b c -> grown_by (S n) a c.
Proof.
  unfold grown_by. change (inject_Z (Z.of_nat 1)) with 1.
  rewrite (inject_succ n). intros. lra.
Qed.

Lemma evaluate_fold_bounds fi sums fold s s' log sums' :
  scores_in_unit_interval ->
  evaluate_fold fi sums fold s = (s', log, Ok sums') ->
  grown_by 1 (accuracy_sum sums) (accuracy_sum sums') /\
  grown_by 1 (recall_sum sums) (recall_sum sums') /\
  grown_by 1 (precision_sum sums) (precision_sum sums') /\
  grown_by 1 (f1_sum sums) (f1_sum sums').
Proof.
  intros (Ba & Br & Bp & Bf). destruct fold as [tr te]. intros H.
  destruct (evaluate_fold_ok _ _ _ _ _ _ _ _ H)
    as (Xtr & Xte & ytr & yte & p & yp & _ & _ & _ & _ & _ & _ & Hm).
  destruct (binary_class s).
  - destruct Hm as (a & r & pr & f & probs & yprob & Ha & Hr & Hp & Hf & _ & _ & Hm).
    apply Ba in Ha. apply Br in Hr. apply Bp in Hp. apply Bf in Hf.
    assert (Hs : exists u, sums' = mkSums (accuracy_sum sums + a) (recall_sum sums + r)
                        (precision_sum sums + pr) (f1_sum sums + f) u).
    { destruct (Nat.eqb (length yte) (length yprob)).
      - destruct Hm as (fpr & tpr & v & _ & _ & _ & ->). eauto.
      - destruct Hm as (_ & ->). eauto. }
    destruct Hs as (u & ->). unfold grown_by.
    change (inject_Z (Z.of_nat 1)) with 1. cbn [accuracy_sum recall_sum precision_sum f1_sum].
    repeat split; lra.
  - destruct Hm as (r & pr & f & Hr & Hp & Hf & _ & ->).
    apply Br in Hr. apply Bp in Hp. apply Bf in Hf.
    unfold grown_by.
    change (inject_Z (Z.of_nat 1)) with 1. cbn [accuracy_sum recall_sum precision_sum f1_sum].
    repeat split; lra.
Qed.

Lemma evaluate_loop_bounds fi folds :
  scores_in_unit_interval ->
  forall sums s s' log sums',
  for_each (evaluate_fold fi) folds sums s = (s', log, Ok sums') ->
  grown_by (length folds) (accuracy_sum sums) (accuracy_sum sums') /\
  grown_by (length folds) (recall_sum sums) (recall_sum sums') /\
  grown_by (length folds) (precision_sum sums) (precision_sum sums') /\
  grown_by (length folds) (f1_sum sums) (f1_sum sums').
Proof.
  intros HB. induction folds as [| fold folds IH]; intros sums s s' log sums' H.
  - rewrite for_each_nil in H. inversion H; subst.
    repeat split; apply grown_by_refl.
  - apply for_each_cons_ok in H.
    destruct H as (s1 & l1 & sums1 & l2 & Hb & Hr & ->).
    destruct (evaluate_fold_bounds _ _ _ _ _ _ _ HB Hb) as (A1 & A2 & A3 & A4).
    destruct (IH _ _ _ _ _ Hr) as (B1 & B2 & B3 & B4).
    cbn [length]. repeat split; eapply grown_by_step; eassumption.
Qed.

Lemma mean_in_unit_interval a n k :
  grown_by n 0 a -> (n <= k)%nat -> k <> 0%nat -> 0 <= mean a k <= 1.
Proof.
  unfold grown_by, mean. intros (H0 & Hn) Hle Hk.
  assert (Hkpos : 0 < inject_Z (Z.of_nat k)).
  { change 0 with (inject_Z 0). rewrite <- Zlt_Qlt. lia. }
  assert (Hnk : inject_Z (Z.of_nat n) <= inject_Z (Z.of_nat k)).
  { rewrite <- Zle_Qle. lia. }
  split.
  - apply Qle_shift_div_l; [assumption | lra].
  - apply Qle_shift_div_r; [assumption | lra].
Qed.

(** C8. In a completed run of [evaluate], each reported average of
    accuracy, precision, recall and F1 lies in [[0, 1]], given that every
    per-fold score lies in [[0, 1]] and that the fold generator yields no
    more than [folds_num] folds (it yields [n_splits = folds_num]). *)
Theorem evaluate_averages_in_unit_interval (s s' : Classifier) (log : list event) :
  scores_in_unit_interval ->
  (forall folds,
     StratifiedKFold_split (fst (cv s)) (snd (cv s)) (X s) (y s) = Ok folds ->
     (length folds <= folds_num s)%nat) ->
  evaluate s = (s', log, Ok tt) ->
  forall fmt v,
    In fmt ["Avg. accuracy: %.2f"; "Avg. recall: %.2f"; "Avg. precision: %.2f";
            "Avg. F-measure: %.2f"] ->
    In v (values_of fmt log) ->
    0 <= v <= 1.
Proof.
  intros HB Hk H fmt v Hfmt Hv.
  apply evaluate_log_values in H.
  destruct H as (folds & s1 & loop_log & sums & Hsp & Hloop & Hnz & Havg & _).
  apply Hk in Hsp.
  destruct (evaluate_loop_bounds _ _ HB _ _ _ _ _ Hloop) as (Ga & Gr & Gp & Gf).
  cbn [zero_sums accuracy_sum recall_sum precision_sum f1_sum] in *.
  rewrite Havg in Hv by (cbn in Hfmt |- *; tauto).
  unfold report_lines in Hv. cbn in Hfmt.
  destruct Hfmt as [<- | [<- | [<- | [<- | []]]]];
    (destruct (binary_class s); [destruct (Qlt_le_dec 0 (roc_auc_sum sums)) |]);
    cbn in Hv; try contradiction;
    destruct Hv as [<- | []];
    eapply mean_in_unit_interval; eassumption.
Qed.

(** C4. In a binary-mode fold of [evaluate] that completes, the ROC curve
    and the AUC are computed, logged, plotted and added to the running AUC
    sum exactly when the number of test labels equals the number of
    probability scores; otherwise the AUC sum is left as it was.  The four
    other sums and the four metric lines are the same in both cases. *)
Theorem binary_fold_auc_iff_lengths_agree
    (fi : nat) (sums : Sums) (train_index test_index : list nat)
    (s s' : Classifier) (log : list event) (sums' : Sums) :
  binary_class s = true ->
  evaluate_fold fi sums (train_index, test_index) s = (s', log, Ok sums') ->
  exists X_test y_test y_pred probs y_prob accuracy recall precision f1 tail,
    take (X s) test_index = Ok X_test /\
    take (y s) test_index = Ok y_test /\
    predict (classifier s') X_test = Ok y_pred /\
    predict_proba (classifier s') X_test = Ok probs /\
    column1 probs = Ok y_prob /\
    accuracy_score y_test y_pred = Ok accuracy /\
    recall_score Binary y_test y_pred = Ok recall /\
    precision_score Binary y_test y_pred = Ok precision /\
    f1_score Binary y_test y_pred = Ok f1 /\
    accuracy_sum sums' = accuracy_sum sums + accuracy /\
    recall_sum sums' = recall_sum sums + recall /\
    precision_sum sums' = precision_sum sums + precision /\
    f1_sum sums' = f1_sum sums + f1 /\
    log = binary_lines accuracy recall precision f1 ++ tail /\
    ((length y_test = length y_prob /\
      exists fpr tpr roc_auc,
        roc_curve y_test y_prob = Ok (fpr, tpr) /\
        auc fpr tpr = Ok roc_auc /\
        roc_auc_sum sums' = roc_auc_sum sums + roc_auc /\
        tail = [Log "AUC: %.2f" [roc_auc];
                Plot fpr tpr (line_width s)
                  (nth (colors s mod length palette) palette EmptyString) fi roc_auc])
     \/
     (length y_test <> length y_prob /\
      roc_auc_sum sums' = roc_auc_sum sums /\
      tail = [])).
Proof.
  intros Hbin H.
  destruct (evaluate_fold_ok _ _ _ _ _ _ _ _ H)
    as (Xtr & Xte & ytr & yte & p & yp & _ & HXte & _ & Hyte & _ & Hpred & Hm).
  rewrite Hbin in Hm.
  destruct Hm as (a & r & pr & f & probs & yprob & Ha & Hr & Hp & Hf & Hpp & Hc & Hm).
  exists Xte, yte, yp, probs, yprob, a, r, pr, f.
  destruct (Nat.eqb_spec (length yte) (length yprob)) as [Hlen | Hlen].
  - destruct Hm as (fpr & tpr & v & Hroc & Hauc & -> & ->).
    eexists. repeat (split; [eassumption || reflexivity |]).
    left. split; [assumption |].
    exists fpr, tpr, v. repeat (split; [eassumption || reflexivity |]). reflexivity.
  - destruct Hm as (-> & ->).
    exists []. repeat (split; [eassumption || reflexivity |]).
    right. repeat split. assumption.
Qed.

(** C7. In multiclass mode ([binary_class] false) a fold of [evaluate]
    computes recall, precision and F1 with [average='macro'], logs these
    three lines only and leaves the accuracy sum untouched; the log of a
    completed run holds no accuracy line and no averaged-accuracy line. *)
Theorem multiclass_uses_macro_and_no_accuracy (s : Classifier) :
  binary_class s = false ->
  (forall fi sums train_index test_index s' log sums',
     evaluate_fold fi sums (train_index, test_index) s = (s', log, Ok sums') ->
     exists X_test y_test y_pred recall precision f1,
       take (X s) test_index = Ok X_test /\
       take (y s) test_index = Ok y_test /\
       predict (classifier s') X_test = Ok y_pred /\
       recall_score Macro y_test y_pred = Ok recall /\
       precision_score Macro y_test y_pred = Ok precision /\
       f1_score Macro y_test y_pred = Ok f1 /\
       log = [Log "Recall: %.2f" [recall]; Log "Precision: %.2f" [precision];
              Log "F-measure: %.2f" [f1]] /\
       sums' = mkSums (accuracy_sum sums) (recall_sum sums + recall)
                 (precision_sum sums + precision) (f1_sum sums + f1)
                 (roc_auc_sum sums)) /\
  (forall s' log,
     evaluate s = (s', log, Ok tt) ->
     values_of "Accuracy: %.2f" log = [] /\
     values_of "Avg. accuracy: %.2f" log = [] /\
     (exists recall_avg precision_avg f1_avg,
        values_of "Avg. recall: %.2f" log = [recall_avg] /\
        values_of "Avg. precision: %.2f" log = [precision_avg] /\
        values_of "Avg. F-measure: %.2f" log = [f1_avg])).
Proof.
  intros Hmc. split.
  - intros fi sums tr te s' log sums' H.
    destruct (evaluate_fold_ok _ _ _ _ _ _ _ _ H)
      as (Xtr & Xte & ytr & yte & p & yp & _ & HXte & _ & Hyte & _ & Hpred & Hm).
    rewrite Hmc in Hm.
    destruct Hm as (r & pr & f & Hr & Hp & Hf & -> & ->).
    exists Xte, yte, yp, r, pr, f. repeat (split; [assumption |]).
    split; reflexivity.
  - intros s' log H. apply evaluate_log_values in H.
    destruct H as (folds & s1 & loop_log & sums & _ & Hloop & _ & Havg & Hfold).
    destruct (evaluate_loop_tracks _ _ _ _ _ _ _ Hloop) as (_ & _ & _ & Hno).
    destruct (Hno Hmc) as (Hacc & _).
    rewrite (Hfold "Accuracy: %.2f") by (cbn; tauto).
    rewrite !(Havg "Avg. accuracy: %.2f"), (Havg "Avg. recall: %.2f"),
      (Havg "Avg. precision: %.2f"), (Havg "Avg. F-measure: %.2f") by (cbn; tauto).
    rewrite Hmc. split; [assumption |]. split; [reflexivity |].
    do 3 eexists. repeat split; reflexivity.
Qed.

Lemma cross_validate_fold_run u tr te s s' out r :
  cross_validate_fold u (tr, te) s = (s', out, r) ->
  s' = set_colors s (S (colors s)) /\
  ((exists e, r = Err e /\ out = []) \/
   (r = Ok tt /\ exists kept model,
      out = [(model, te)] /\ yielded_from (X s) (y s) (tr, te) kept (model, te))).
Proof.
  unfold cross_validate_fold. unfold bind at 1. rewrite next_color_run.
  unfold bind at 1. unfold get at 1.
  cbn [X y set_colors].
  unfold bind, lift, emit.
  destruct (known_labels (y s) tr) as [kept | e] eqn:Hk; cbn.
  2:{ intros H; inversion H; subst. split; [reflexivity | left; eauto]. }
  destruct (take (X s) kept) as [Xtr | e] eqn:HX; cbn.
  2:{ intros H; inversion H; subst. split; [reflexivity | left; eauto]. }
  destruct (take (y s) kept) as [ytr | e] eqn:Hy; cbn.
  2:{ intros H; inversion H; subst. split; [reflexivity | left; eauto]. }
  destruct (fit (construct SVC_balanced) (Some Xtr) (Some ytr)) as [model | e] eqn:Hfit; cbn.
  2:{ intros H; inversion H; subst. split; [reflexivity | left; eauto]. }
  intros H; inversion H; subst. split; [reflexivity |]. right.
  split; [reflexivity |]. exists kept, model. split; [reflexivity |].
  split; [exact Hk |]. exists Xtr, ytr. auto.
Qed.

Lemma cross_validate_loop folds : forall s s' out r,
  for_each cross_validate_fold folds tt s = (s', out, r) ->
  (length out <= length folds)%nat /\
  (r = Ok tt -> length out = length folds) /\
  Forall2 (fun fold yielded => exists kept, yielded_from (X s) (y s) fold kept yielded)
    (firstn (length out) folds) out.
Proof.
  induction folds as [| [tr te] folds IH]; intros s s' out r H.
  - rewrite for_each_nil in H. inversion H; subst. cbn. auto.
  - cbn [for_each] in H. unfold bind in H.
    destruct (cross_validate_fold tt (tr, te) s) as [[s1 l1] r1] eqn:Hf.
    apply cross_validate_fold_run in Hf. destruct Hf as (-> & Hf).
    destruct Hf as [(e & -> & ->) | (-> & kept & model & -> & Hy)].
    + inversion H; subst. cbn. split; [lia |]. split; [discriminate | constructor].
    + destruct (for_each cross_validate_fold folds tt (set_colors s (S (colors s))))
        as [[s2 l2] r2] eqn:Hrest.
      inversion H; subst. apply IH in Hrest. cbn [X y set_colors] in Hrest.
      destruct Hrest as (Hle & Hok & Hall).
      cbn [app length firstn]. split; [lia |]. split; [intros Hr; rewrite (Hok Hr); reflexivity |].
      constructor; [exists kept; exact Hy | exact Hall].
Qed.

Lemma cross_validate_run s s' out r folds :
  StratifiedKFold_split (fst (cv s)) (snd (cv s)) (X s) (y s) = Ok folds ->
  cross_validate s = (s', out, r) ->
  for_each cross_validate_fold folds tt s = (s', out, r).
Proof.
  intros Hsp. unfold cross_validate, bind, get, lift. rewrite Hsp.
  destruct (for_each cross_validate_fold folds tt s) as [[s2 l2] r2].
  cbn. destruct r2; intros H; inversion H; reflexivity.
Qed.

Lemma known_labels_filter labels index kept :
  known_labels labels index = Ok kept ->
  kept = filter (fun idx => (0 <=? nth idx labels 0)%Z) index /\
  Forall (fun idx => (idx < length labels)%nat) index.
Proof.
  revert kept. induction index as [| idx t IH]; intros kept H; cbn in H.
  - inversion H. split; [reflexivity | constructor].
  - unfold getitem in H. destruct (nth_error labels idx) as [l |] eqn:Hn; [| discriminate].
    cbn in H. destruct (known_labels labels t) as [t' |]; [| discriminate].
    cbn in H. inversion H; subst; clear H.
    destruct (IH t' eq_refl) as (-> & Hall).
    split.
    + cbn [filter]. rewrite (nth_error_nth _ _ 0%Z Hn). reflexivity.
    + constructor; [| exact Hall]. apply nth_error_Some. congruence.
Qed.

Lemma take_members {A : Type} (a : list A) index : forall l,
  take a index = Ok l ->
  forall v, In v l -> exists i, In i index /\ nth_error a i = Some v.
Proof.
  unfold take. induction index as [| i t IH]; intros l H v Hv; cbn in H.
  - inversion H; subst. contradiction.
  - unfold getitem in H at 1. destruct (nth_error a i) as [x |] eqn:Hn; [| discriminate].
    cbn in H. destruct (rmap (getitem a) t) as [l' |]; [| discriminate].
    cbn in H. inversion H; subst; clear H.
    destruct Hv as [<- | Hv].
    + exists i. split; [left; reflexivity | assumption].
    + destruct (IH l' eq_refl v Hv) as (j & Hj & Hnj). exists j. split; [right |]; assumption.
Qed.

Lemma kept_labels labels index kept :
  known_labels labels index = Ok kept ->
  forall idx,
    In idx kept <->
    In idx index /\ exists l, nth_error labels idx = Some l /\ (0 <= l)%Z.
Proof.
  intros H idx. destruct (known_labels_filter _ _ _ H) as (-> & Hall).
  rewrite filter_In. rewrite Forall_forall in Hall.
  split.
  - intros (Hin & Hge). split; [assumption |].
    destruct (nth_error labels idx) as [l |] eqn:Hn.
    + exists l. split; [reflexivity |].
      rewrite (nth_error_nth _ _ 0%Z Hn) in Hge. lia.
    + apply nth_error_None in Hn. apply Hall in Hin. lia.
  - intros (Hin & l & Hn & Hl). split; [assumption |].
    rewrite (nth_error_nth _ _ 0%Z Hn). lia.
Qed.

(** C2. Each pair yielded by [cross_validate] carries the planner's test
    indices unchanged, and its model was fitted on the rows and labels at
    the fold's training indices from which every index labelled [-1] has
    been removed: no label [-1] reaches [fit]. *)
Theorem cross_validate_drops_unknown_from_training_only
    (s s' : Classifier) (out : list (Predictor * list nat)) (r : result unit)
    (folds : list (list nat * list nat)) :
  StratifiedKFold_split (fst (cv s)) (snd (cv s)) (X s) (y s) = Ok folds ->
  cross_validate s = (s', out, r) ->
  Forall2
    (fun fold yielded =>
       snd yielded = snd fold /\
       exists kept X_train y_train,
         (forall idx, In idx kept -> In idx (fst fold)) /\
         (forall idx, nth_error (y s) idx = Some (-1)%Z -> ~ In idx kept) /\
         take (X s) kept = Ok X_train /\
         take (y s) kept = Ok y_train /\
         ~ In (-1)%Z y_train /\
         fit (construct SVC_balanced) (Some X_train) (Some y_train) = Ok (fst yielded))
    (firstn (length out) folds) out /\
  (r = Ok tt -> length out = length folds).
Proof.
  intros Hsp H. apply (cross_validate_run _ _ _ _ _ Hsp) in H.
  apply cross_validate_loop in H. destruct H as (_ & Hlen & Hall).
  split; [| exact Hlen].
  eapply Forall2_impl; [| exact Hall].
  intros fold yielded (kept & Hk & Xtr & ytr & HX & Hy & Hfit & Hte).
  split; [exact Hte |].
  pose proof (kept_labels _ _ _ Hk) as Hin.
  exists kept, Xtr, ytr. repeat split; try assumption.
  - intros idx Hidx. apply Hin in Hidx. tauto.
  - intros idx Hl Hidx. apply Hin in Hidx.
    destruct Hidx as (_ & l & Hn & Hge). rewrite Hl in Hn. inversion Hn. lia.
  - intros Hm. destruct (take_members _ _ _ Hy _ Hm) as (i & Hi & Hn).
    apply Hin in Hi. destruct Hi as (_ & l & Hn' & Hge).
    rewrite Hn in Hn'. inversion Hn'. lia.
Qed.

(** C9. The training indices [cross_validate] fits on are exactly the
    fold's training indices whose label is [>= 0]: an index with any
    negative label is dropped, whether the label is [-1] or not. *)
Theorem cross_validate_keeps_nonnegative_labels
    (s s' : Classifier) (out : list (Predictor * list nat)) (r : result unit)
    (folds : list (list nat * list nat)) :
  StratifiedKFold_split (fst (cv s)) (snd (cv s)) (X s) (y s) = Ok folds ->
  cross_validate s = (s', out, r) ->
  Forall2
    (fun fold yielded =>
       exists kept X_train y_train,
         kept = filter (fun idx => (0 <=? nth idx (y s) 0)%Z) (fst fold) /\
         (forall idx,
            In idx kept <->
            In idx (fst fold) /\
            exists l, nth_error (y s) idx = Some l /\ (0 <= l)%Z) /\
         take (X s) kept = Ok X_train /\
         take (y s) kept = Ok y_train /\
         fit (construct SVC_balanced) (Some X_train) (Some y_train) = Ok (fst yielded))
    (firstn (length out) folds) out.
Proof.
  intros Hsp H. apply (cross_validate_run _ _ _ _ _ Hsp) in H.
  apply cross_validate_loop in H. destruct H as (_ & _ & Hall).
  eapply Forall2_impl; [| exact Hall].
  intros fold yielded (kept & Hk & Xtr & ytr & HX & Hy & Hfit & _).
  exists kept, Xtr, ytr.
  split; [apply (known_labels_filter _ _ _ Hk) |].
  split; [apply (kept_labels _ _ _ Hk) |]. auto.
Qed.

(** ** What every run of [evaluate] keeps *)

Section RunInv.

Variable R : Classifier -> Classifier -> Prop.
Hypothesis R_refl : forall s, R s s.
Hypothesis R_trans : forall s1 s2 s3, R s1 s2 -> R s2 s3 -> R s1 s3.
Hypothesis R_next_color : forall s, R s (set_colors s (S (colors s))).
Hypothesis R_train :
  forall X_train y_train s s' (log : list event) r,
    @train sk event X_train y_train s = (s', log, r) -> R s s'.

Lemma run_inv_ret {E A : Type} (P : E -> Prop) (a : A) : run_inv R P (ret a).
Proof. intros s s' log r H. inversion H; subst. auto. Qed.

Lemma run_inv_get {E : Type} (P : E -> Prop) : run_inv R P get.
Proof. intros s s' log r H. inversion H; subst. auto. Qed.

Lemma run_inv_lift {E A : Type} (P : E -> Prop) (x : result A) : run_inv R P (lift x).
Proof. intros s s' log r H. inversion H; subst. auto. Qed.

Lemma run_inv_emit {E : Type} (P : E -> Prop) (e : E) : P e -> run_inv R P (emit e).
Proof. intros He s s' log r H. inversion H; subst. auto. Qed.

Lemma run_inv_bind {E A B : Type} (P : E -> Prop) (m : M E A) (k : A -> M E B) :
  run_inv R P m -> (forall a, run_inv R P (k a)) -> run_inv R P (bind m k).
Proof.
  intros Hm Hk s s' log r H. unfold bind in H.
  destruct (m s) as [[s1 l1] [a | e]] eqn:Em.
  - destruct (k a s1) as [[s2 l2] r2] eqn:Ek. inversion H; subst.
    destruct (Hm _ _ _ _ Em) as (R1 & F1). destruct (Hk a _ _ _ _ Ek) as (R2 & F2).
    split; [eapply R_trans; eassumption | apply Forall_app; auto].
  - inversion H; subst. exact (Hm _ _ _ _ Em).
Qed.

Lemma run_inv_for_each {E A S : Type} (P : E -> Prop) (body : S -> A -> M E S) l :
  (forall acc a, run_inv R P (body acc a)) ->
  forall acc, run_inv R P (for_each body l acc).
Proof.
  intros Hb. induction l as [| a t IH]; intros acc; cbn [for_each].
  - apply run_inv_ret.
  - apply run_inv_bind; [apply Hb | exact IH].
Qed.

Lemma run_inv_next_color {E : Type} (P : E -> Prop) : run_inv R P (@next_color sk E).
Proof.
  intros s s' log r H. rewrite next_color_run in H. inversion H; subst. auto.
Qed.

Lemma run_inv_train (P : event -> Prop) Xo yo : run_inv R P (@train sk event Xo yo).
Proof.
  intros s s' log r H. split; [eapply R_train; eassumption |].
  apply train_frame in H. destruct H as (-> & _). constructor.
Qed.

Ltac run_inv_step :=
  cbv beta;
  lazymatch goal with
  | |- run_inv _ _ (bind _ _) => apply run_inv_bind; [| intros ?]
  | |- run_inv _ _ (ret _) => apply run_inv_ret
  | |- run_inv _ _ get => apply run_inv_get
  | |- run_inv _ _ (lift _) => apply run_inv_lift
  | |- run_inv _ _ (emit _) => apply run_inv_emit
  | |- run_inv _ _ next_color => apply run_inv_next_color
  | |- run_inv _ _ (train _ _) => apply run_inv_train
  | |- run_inv _ _ (if ?b then _ else _) => destruct b
  | |- run_inv _ _ (let '(_, _) := ?p in _) => destruct p
  | |- run_inv _ _ (match ?p with (_, _) => _ end) => destruct p
  end.

Lemma run_inv_evaluate_fold (P : event -> Prop) fi sums fold :
  (forall fmt v, In fmt fold_formats -> P (Log fmt [v])) ->
  (forall fpr tpr lw color area, P (Plot fpr tpr lw color fi area)) ->
  run_inv R P (evaluate_fold fi sums fold).
Proof.
  intros Hlog Hplot. unfold evaluate_fold.
  repeat run_inv_step; try apply Hplot; apply Hlog; cbn; tauto.
Qed.

Lemma run_inv_evaluate_loop (P : event -> Prop) :
  (forall fmt v, In fmt fold_formats -> P (Log fmt [v])) ->
  (forall fpr tpr lw color area, P (Plot fpr tpr lw color 1 area)) ->
  run_inv R P evaluate_loop.
Proof.
  intros Hlog Hplot. unfold evaluate_loop.
  repeat run_inv_step.
  apply run_inv_for_each. intros acc fold. apply run_inv_evaluate_fold; assumption.
Qed.

Lemma run_inv_report (P : event -> Prop) sums :
  (forall fmt v, In fmt average_formats -> P (Log fmt [v])) ->
  P (ShowRocGraph false) ->
  run_inv R P (report sums).
Proof.
  intros Hlog Hshow. unfold report.
  repeat run_inv_step; try exact Hshow; apply Hlog; cbn; tauto.
Qed.

Lemma run_inv_evaluate (P : event -> Prop) :
  (forall fmt, P (Log fmt [])) ->
  (forall fmt v, In fmt fold_formats -> P (Log fmt [v])) ->
  (forall fmt v, In fmt average_formats -> P (Log fmt [v])) ->
  (forall fpr tpr lw color area, P (Plot fpr tpr lw color 1 area)) ->
  P (ShowRocGraph false) ->
  run_inv R P evaluate.
Proof.
  intros Hhead Hfold Havg Hplot Hshow. unfold evaluate.
  run_inv_step; [run_inv_step |].
  run_inv_step; [run_inv_step; apply Hhead |].
  run_inv_step; [apply run_inv_evaluate_loop; assumption |].
  apply run_inv_report; assumption.
Qed.

End RunInv.


(** The label of every ROC line [evaluate] plots names fold [1]:
    [fold_index] is incremented once, after the loop and the report.  This
    holds in every run, completed or not. *)
Theorem evaluate_labels_every_roc_line_fold_1
    (s s' : Classifier) (log : list event) (r : result unit)
    (fpr tpr : list Q) (lw : nat) (color : string) (fold_index : nat) (area : Q) :
  evaluate s = (s', log, r) ->
  In (Plot fpr tpr lw color fold_index area) log ->
  fold_index = 1%nat.
Proof.
  intros H Hin.
  assert (Hall : Forall labelled_fold_1 log).
  { refine (proj2 (run_inv_evaluate (fun _ _ => True) _ _ _ _ labelled_fold_1
                     _ _ _ _ _ s s' log r H)); cbn; auto. }
  rewrite Forall_forall in Hall. exact (Hall _ Hin).
Qed.




Lemma no_report_values log :
  Forall no_report log ->
  (forall fmt, In fmt average_formats -> values_of fmt log = []) /\
  (forall b, ~ In (ShowRocGraph b) log).
Proof.
  induction 1 as [| e log He Hall (IH1 & IH2)].
  - split; [reflexivity | intros b []].
  - split.
    + intros fmt Hf. change (e :: log) with ([e] ++ log).
      rewrite values_of_app, (IH1 fmt Hf), app_nil_r.
      destruct e as [f [| v [| ? ?]] | |]; try reflexivity.
      cbn. destruct (String.eqb_spec f fmt) as [-> | _]; [| reflexivity].
      cbn in He. contradiction.
    + intros b [-> | Hin]; [exact He | exact (IH2 b Hin)].
Qed.



(** ** [train] and [__init__] *)

Lemma train_outcome {E : Type}
    (X_train : option (list Feature)) (y_train : option (list Z))
    (s s' : Classifier) (log : list E) (r : result Predictor) :
  @train sk E X_train y_train s = (s', log, r) ->
  log = [] /\
  match r with
  | Ok p => s' = set_classifier s p
  | Err _ => s' = s
  end.
Proof.
  intros H.
  destruct (String.eqb_spec (classifier_type s) "dnn") as [Hd | Hd].
  - rewrite (train_skips_dnn s _ _ Hd) in H. inversion H; subst.
    split; [reflexivity |].
    match goal with |- ?x = _ => destruct x; reflexivity end.
  - rewrite (train_fits s _ _ Hd) in H. unfold after_fit in H.
    match type of H with
    | context [match ?x with Ok _ => _ | Err _ => _ end] => destruct x
    end; inversion H; subst; auto.
Qed.






(** With [classifier_type] ['dnn'] no run of [evaluate], completed or not,
    changes the estimator of the object: the folds are scored with the
    estimator the object held before the call. *)
Theorem evaluate_never_fits_dnn
    (s s' : Classifier) (log : list event) (r : result unit) :
  classifier_type s = "dnn" ->
  evaluate s = (s', log, r) ->
  classifier s' = classifier s.
Proof.
  intros Hd H.
  pose (R := fun a b : Classifier =>
               classifier_type a = "dnn" ->
               classifier_type b = "dnn" /\ classifier b = classifier a).
  assert (R_refl : forall a, R a a) by (intros a Ha; auto).
  assert (R_trans : forall a b c, R a b -> R b c -> R a c).
  { intros a b c Hab Hbc Ha. destruct (Hab Ha) as (Hb & Eab).
    destruct (Hbc Hb) as (Hc & Ebc). split; congruence. }
  assert (R_next : forall a, R a (set_colors a (S (colors a)))) by (intros a Ha; auto).
  assert (R_train : forall Xo yo a b (l : list event) r0,
            @train sk event Xo yo a = (b, l, r0) -> R a b).
  { intros Xo yo a b l r0 Ht Ha. rewrite (train_skips_dnn a Xo yo Ha) in Ht.
    inversion Ht; subst. auto. }
  exact (proj2 (proj1 (run_inv_evaluate R R_refl R_trans R_next R_train (fun _ => True)
                         (fun _ => I) (fun _ _ _ => I) (fun _ _ _ => I)
                         (fun _ _ _ _ _ => I) I s s' log r H) Hd)).
Qed.

(** ** Counting the lines of a completed run *)

Lemma rmap_length {A B : Type} (f : A -> result B) l : forall l',
  rmap f l = Ok l' -> length l' = length l.
Proof.
  induction l as [| a t IH]; intros l' H; cbn in H.
  - inversion H. reflexivity.
  - destruct (f a); [| discriminate]. cbn in H.
    destruct (rmap f t) as [t' |]; [| discriminate]. cbn in H.
    inversion H. cbn. rewrite (IH t' eq_refl). reflexivity.
Qed.

Lemma take_length {A : Type} (a : list A) index l :
  take a index = Ok l -> length l = length index.
Proof. apply rmap_length. Qed.

Lemma column1_length probs l : column1 probs = Ok l -> length l = length probs.
Proof.
  unfold column1. destruct probs as [| r t]; [discriminate |].
  destruct (forallb _ _); [apply rmap_length | discriminate].
Qed.

(** In a completed binary-mode fold the AUC is logged and added exactly
    when [predict_proba] returned as many rows as the fold has test
    indices; with any other number of rows no AUC is logged and the AUC sum
    is unchanged. *)
Theorem binary_fold_auc_needs_one_row_per_test_point
    (fi : nat) (sums : Sums) (train_index test_index : list nat)
    (s s' : Classifier) (log : list event) (sums' : Sums) :
  binary_class s = true ->
  evaluate_fold fi sums (train_index, test_index) s = (s', log, Ok sums') ->
  exists X_test probs,
    take (X s) test_index = Ok X_test /\
    predict_proba (classifier s') X_test = Ok probs /\
    (length probs = length test_index ->
     exists roc_auc,
       values_of "AUC: %.2f" log = [roc_auc] /\
       roc_auc_sum sums' = roc_auc_sum sums + roc_auc) /\
    (length probs <> length test_index ->
     values_of "AUC: %.2f" log = [] /\ roc_auc_sum sums' = roc_auc_sum sums).
Proof.
  intros Hbin H.
  destruct (evaluate_fold_ok _ _ _ _ _ _ _ _ H)
    as (Xtr & Xte & ytr & yte & p & yp & _ & HXte & _ & Hyte & _ & _ & Hm).
  rewrite Hbin in Hm.
  destruct Hm as (a & r & pr & f & probs & yprob & _ & _ & _ & _ & Hpp & Hc & Hm).
  apply take_length in Hyte. apply column1_length in Hc.
  exists Xte, probs. repeat (split; [assumption |]).
  destruct (Nat.eqb_spec (length yte) (length yprob)) as [Hlen | Hlen].
  - destruct Hm as (fpr & tpr & v & _ & _ & -> & ->).
    split; [intros _; exists v; split; reflexivity | intros Hne; lia].
  - destruct Hm as (-> & ->).
    split; [intros He; lia | intros _; split; reflexivity].
Qed.

Lemma evaluate_fold_lines fi sums fold s s' log sums' :
  evaluate_fold fi sums fold s = (s', log, Ok sums') ->
  one_line_per_fold (binary_class s) 1 log /\ colors s' = S (colors s).
Proof.
  destruct fold as [tr te]. intros H.
  destruct (evaluate_fold_ok _ _ _ _ _ _ _ _ H)
    as (Xtr & Xte & ytr & yte & p & yp & _ & _ & _ & _ & Ht & _ & Hm).
  split.
  - unfold one_line_per_fold. destruct (binary_class s).
    + destruct Hm as (a & r & pr & f & probs & yprob & _ & _ & _ & _ & _ & _ & Hm).
      destruct (Nat.eqb (length yte) (length yprob)).
      * destruct Hm as (fpr & tpr & v & _ & _ & -> & _). cbn. repeat split; lia.
      * destruct Hm as (-> & _). cbn. repeat split; lia.
    + destruct Hm as (r & pr & f & _ & _ & _ & -> & _). cbn. repeat split; lia.
  - apply train_outcome in Ht. destruct Ht as (_ & ->). reflexivity.
Qed.

Lemma evaluate_loop_lines fi folds : forall sums s s' log sums',
  for_each (evaluate_fold fi) folds sums s = (s', log, Ok sums') ->
  one_line_per_fold (binary_class s) (length folds) log /\
  colors s' = (colors s + length folds)%nat.
Proof.
  induction folds as [| fold folds IH]; intros sums s s' log sums' H.
  - rewrite for_each_nil in H. inversion H; subst.
    split; [| cbn; lia]. unfold one_line_per_fold. destruct (binary_class s'); cbn; auto.
  - apply for_each_cons_ok in H.
    destruct H as (s1 & l1 & sums1 & l2 & Hb & Hr & ->).
    pose proof (evaluate_fold_frame _ _ _ _ _ _ _ Hb) as (_ & _ & _ & Hbc & _).
    destruct (evaluate_fold_lines _ _ _ _ _ _ _ Hb) as ((A1 & A2 & A3 & A4 & A5) & Hc).
    destruct (IH _ _ _ _ _ Hr) as ((B1 & B2 & B3 & B4 & B5) & Hc').
    rewrite Hbc in *. split; [| cbn [length]; lia].
    unfold one_line_per_fold. rewrite !values_of_app, !length_app. cbn [length].
    destruct (binary_class s); repeat split; lia.
Qed.

Lemma evaluate_ok_with folds s s' log u :
  StratifiedKFold_split (fst (cv s)) (snd (cv s)) (X s) (y s) = Ok folds ->
  evaluate s = (s', log, Ok u) ->
  exists s1 loop_log sums,
    for_each (evaluate_fold 1) folds zero_sums s = (s1, loop_log, Ok sums) /\
    report sums s1 = (s', report_lines (binary_class s) (folds_num s) sums, Ok u) /\
    folds_num s <> 0%nat /\
    log = Log ("Evaluating " ++ classifier_type s ++ " classifier")%string [] ::
          loop_log ++ report_lines (binary_class s) (folds_num s) sums.
Proof.
  intros Hsp H. apply evaluate_ok in H.
  destruct H as (folds' & s1 & loop_log & sums & Hsp' & Hloop & Hrep & Hnz & Hlog).
  rewrite Hsp in Hsp'. inversion Hsp'; subst folds'.
  exists s1, loop_log, sums. auto.
Qed.

Lemma evaluate_line_counts
    (s s' : Classifier) (log : list event) (folds : list (list nat * list nat)) :
  StratifiedKFold_split (fst (cv s)) (snd (cv s)) (X s) (y s) = Ok folds ->
  evaluate s = (s', log, Ok tt) ->
  length (values_of "Recall: %.2f" log) = length folds /\
  length (values_of "Precision: %.2f" log) = length folds /\
  length (values_of "F-measure: %.2f" log) = length folds /\
  length (values_of "Accuracy: %.2f" log) =
    (if binary_class s then length folds else 0%nat) /\
  (length (values_of "AUC: %.2f" log) <=
     (if binary_class s then length folds else 0))%nat /\
  colors s' = (colors s + length folds)%nat.
Proof.
  intros Hsp H.
  pose proof (evaluate_log_values _ _ _ _ H)
    as (folds' & s0 & loop_log' & sums' & Hsp' & Hloop' & _ & _ & Hfold).
  rewrite Hsp in Hsp'. inversion Hsp'; subst folds'.
  destruct (evaluate_ok_with _ _ _ _ _ Hsp H) as (s1 & loop_log & sums & Hloop & Hrep & _ & _).
  rewrite Hloop in Hloop'. inversion Hloop'; subst s0 loop_log' sums'.
  destruct (evaluate_loop_lines _ _ _ _ _ _ _ Hloop) as ((A1 & A2 & A3 & A4 & A5) & Hc).
  apply report_ok in Hrep. destruct Hrep as (_ & -> & _).
  rewrite !Hfold by (unfold fold_formats; cbn; tauto). auto 10.
Qed.

(** A completed run of [evaluate] logs one recall, one precision and one
    F-measure line per fold of the planner, one accuracy line per fold in
    binary mode and none otherwise, and at most one AUC line per fold (none
    in multiclass mode). *)
Theorem evaluate_logs_one_line_per_fold
    (s s' : Classifier) (log : list event) (folds : list (list nat * list nat)) :
  StratifiedKFold_split (fst (cv s)) (snd (cv s)) (X s) (y s) = Ok folds ->
  evaluate s = (s', log, Ok tt) ->
  length (values_of "Recall: %.2f" log) = length folds /\
  length (values_of "Precision: %.2f" log) = length folds /\
  length (values_of "F-measure: %.2f" log) = length folds /\
  length (values_of "Accuracy: %.2f" log) =
    (if binary_class s then length folds else 0%nat) /\
  (length (values_of "AUC: %.2f" log) <=
     (if binary_class s then length folds else 0))%nat.
Proof.
  intros Hsp H.
  destruct (evaluate_line_counts s s' log folds Hsp H) as (A1 & A2 & A3 & A4 & A5 & _).
  auto.
Qed.

(** A completed run of [evaluate] draws one colour per fold from the
    cycle of the object and does not reset it: the next call continues
    where this one stopped. *)
Theorem evaluate_draws_one_colour_per_fold
    (s s' : Classifier) (log : list event) (folds : list (list nat * list nat)) :
  StratifiedKFold_split (fst (cv s)) (snd (cv s)) (X s) (y s) = Ok folds ->
  evaluate s = (s', log, Ok tt) ->
  colors s' = (colors s + length folds)%nat.
Proof.
  intros Hsp H. apply (evaluate_line_counts s s' log folds Hsp H).
Qed.

Lemma evaluate_average_is_mean
    (s s' : Classifier) (log : list event) (folds : list (list nat * list nat)) :
  StratifiedKFold_split (fst (cv s)) (snd (cv s)) (X s) (y s) = Ok folds ->
  length folds = folds_num s ->
  evaluate s = (s', log, Ok tt) ->
  forall fmt avg_fmt,
    In (fmt, avg_fmt)
       [("Recall: %.2f", "Avg. recall: %.2f"); ("Precision: %.2f", "Avg. precision: %.2f");
        ("F-measure: %.2f", "Avg. F-measure: %.2f")] \/
    (binary_class s = true /\ (fmt, avg_fmt) = ("Accuracy: %.2f", "Avg. accuracy: %.2f")) ->
    values_of avg_fmt log =
    [running_sum (values_of fmt log) /
     inject_Z (Z.of_nat (length (values_of fmt log)))].
Proof.
  intros Hsp Hlen H fmt avg_fmt Hf.
  destruct (evaluate_line_counts s s' log folds Hsp H)
    as (C1 & C2 & C3 & C4 & _).
  apply evaluate_log_values in H.
  destruct H as (folds' & s1 & loop_log & sums & _ & Hloop & _ & Havg & Hfold).
  destruct (evaluate_loop_tracks _ _ _ _ _ _ _ Hloop)
    as (_ & (Ta & Tr & Tp & Tf & _) & _ & _).
  cbn [zero_sums accuracy_sum recall_sum precision_sum f1_sum] in *.
  rewrite Hlen in *.
  destruct Hf as [[Hf | [Hf | [Hf | []]]] | (Hb & Hf)]; inversion Hf; subst fmt avg_fmt;
    rewrite Havg by (cbn; tauto); unfold running_sum.
  - rewrite C1, (Hfold "Recall: %.2f"), <- Tr by (unfold fold_formats; cbn; tauto).
    unfold report_lines, mean.
    destruct (binary_class s); [destruct (Qlt_le_dec 0 (roc_auc_sum sums)) |]; reflexivity.
  - rewrite C2, (Hfold "Precision: %.2f"), <- Tp by (unfold fold_formats; cbn; tauto).
    unfold report_lines, mean.
    destruct (binary_class s); [destruct (Qlt_le_dec 0 (roc_auc_sum sums)) |]; reflexivity.
  - rewrite C3, (Hfold "F-measure: %.2f"), <- Tf by (unfold fold_formats; cbn; tauto).
    unfold report_lines, mean.
    destruct (binary_class s); [destruct (Qlt_le_dec 0 (roc_auc_sum sums)) |]; reflexivity.
  - rewrite Hb in *.
    rewrite C4, (Hfold "Accuracy: %.2f"), <- Ta by (unfold fold_formats; cbn; tauto).
    unfold report_lines, mean.
    destruct (Qlt_le_dec 0 (roc_auc_sum sums)); reflexivity.
Qed.

(** When the planner yields exactly [folds_num] folds, the averages of
    recall, precision and F-measure reported by a completed run (and of
    accuracy in binary mode) are the means of the logged per-fold values:
    their running sum divided by their number. *)
Theorem evaluate_averages_are_means_over_folds_num_folds
    (s s' : Classifier) (log : list event) (folds : list (list nat * list nat)) :
  StratifiedKFold_split (fst (cv s)) (snd (cv s)) (X s) (y s) = Ok folds ->
  length folds = folds_num s ->
  evaluate s = (s', log, Ok tt) ->
  values_of "Avg. recall: %.2f" log =
    [running_sum (values_of "Recall: %.2f" log) /
     inject_Z (Z.of_nat (length (values_of "Recall: %.2f" log)))] /\
  values_of "Avg. precision: %.2f" log =
    [running_sum (values_of "Precision: %.2f" log) /
     inject_Z (Z.of_nat (length (values_of "Precision: %.2f" log)))] /\
  values_of "Avg. F-measure: %.2f" log =
    [running_sum (values_of "F-measure: %.2f" log) /
     inject_Z (Z.of_nat (length (values_of "F-measure: %.2f" log)))] /\
  (binary_class s = true ->
   values_of "Avg. accuracy: %.2f" log =
     [running_sum (values_of "Accuracy: %.2f" log) /
      inject_Z (Z.of_nat (length (values_of "Accuracy: %.2f" log)))]).
Proof.
  intros Hsp Hlen H.
  pose proof (evaluate_average_is_mean s s' log folds Hsp Hlen H) as Hm.
  repeat split; try intros Hb; apply Hm; cbn; tauto.
Qed.

Lemma for_each_evaluate_fold_no_report fi folds sums s s' log r :
  for_each (evaluate_fold fi) folds sums s = (s', log, r) -> Forall no_report log.
Proof.
  intros H.
  refine (proj2 (run_inv_for_each (fun _ _ => True) _ _ no_report _ folds _ sums
                   s s' log r H)); auto.
  intros acc fold. apply run_inv_evaluate_fold; cbn; auto.
  intros fmt v Hf Ha. unfold fold_formats in Hf. cbn in Hf, Ha.
  repeat (destruct Hf as [<- | Hf];
          [repeat (destruct Ha as [Ha | Ha]; [discriminate Ha |]); exact Ha |]).
  exact Hf.
Qed.

(** A completed run of [evaluate] shows the ROC graph exactly when it is
    in binary mode and the sum of the logged AUC values is positive; the
    call has [show_legend=False] and is the last event of the run. *)
Theorem evaluate_shows_graph_iff_positive_auc_sum
    (s s' : Classifier) (log : list event) (show_legend : bool) :
  evaluate s = (s', log, Ok tt) ->
  (In (ShowRocGraph show_legend) log <->
   show_legend = false /\ binary_class s = true /\
   0 < running_sum (values_of "AUC: %.2f" log)) /\
  (In (ShowRocGraph show_legend) log -> last log (ShowRocGraph true) = ShowRocGraph false).
Proof.
  intros H.
  pose proof (evaluate_log_values _ _ _ _ H)
    as (folds & s0 & loop_log' & sums' & Hsp & Hloop' & _ & _ & Hfold).
  destruct (evaluate_ok_with _ _ _ _ _ Hsp H) as (s1 & loop_log & sums & Hloop & _ & _ & ->).
  rewrite Hloop in Hloop'. inversion Hloop'; subst s0 loop_log' sums'.
  destruct (evaluate_loop_tracks _ _ _ _ _ _ _ Hloop) as (_ & (_ & _ & _ & _ & Tu) & _ & _).
  cbn [zero_sums roc_auc_sum] in Tu.
  destruct (no_report_values _ (for_each_evaluate_fold_no_report _ _ _ _ _ _ _ Hloop))
    as (_ & Hno).
  rewrite (Hfold "AUC: %.2f") by (unfold fold_formats; cbn; tauto).
  unfold running_sum. rewrite <- Tu.
  assert (Hin : In (ShowRocGraph show_legend)
                  (Log ("Evaluating " ++ classifier_type s ++ " classifier")%string [] ::
                   loop_log ++ report_lines (binary_class s) (folds_num s) sums) <->
                In (ShowRocGraph show_legend)
                  (report_lines (binary_class s) (folds_num s) sums)).
  { cbn [In]. rewrite in_app_iff. split.
    - intros [Hd | [Hl | Hr]]; [discriminate Hd | destruct (Hno _ Hl) | exact Hr].
    - auto. }
  split.
  - rewrite Hin. unfold report_lines.
    destruct (binary_class s); [destruct (Qlt_le_dec 0 (roc_auc_sum sums)) as [Hp | Hp] |];
      cbn; split.
    + intros [Hd | [Hd | [Hd | [Hd | [Hd | [Hd | []]]]]]]; try discriminate Hd.
      inversion Hd. auto.
    + intros (-> & _). auto 10.
    + intros [Hd | [Hd | [Hd | [Hd | []]]]]; discriminate Hd.
    + intros (_ & _ & Hlt). exfalso. apply (Qlt_not_le _ _ Hlt Hp).
    + intros [Hd | [Hd | [Hd | []]]]; discriminate Hd.
    + intros (_ & Hb & _). discriminate Hb.
  - intros Hshow. apply Hin in Hshow. unfold report_lines in *.
    destruct (binary_class s); [destruct (Qlt_le_dec 0 (roc_auc_sum sums)) as [Hp | Hp] |].
    + match goal with
      | |- last (?h :: loop_log ++ [?a] ++ [?b; ?c; ?d] ++ [?e; ?f]) _ = _ =>
          replace (h :: loop_log ++ [a] ++ [b; c; d] ++ [e; f])
            with ((h :: loop_log ++ [a; b; c; d; e]) ++ [f])
            by (cbn; rewrite <- app_assoc; reflexivity)
      end.
      apply last_last.
    + cbn in Hshow. destruct Hshow as [Hd | [Hd | [Hd | [Hd | []]]]]; discriminate Hd.
    + cbn in Hshow. destruct Hshow as [Hd | [Hd | [Hd | []]]]; discriminate Hd.
Qed.

(** ** The estimator [evaluate] leaves behind *)

Lemma for_each_app_ok {E A S : Type} (body : S -> A -> M E S) l1 l2 :
  forall acc s s' log acc',
  for_each body (l1 ++ l2) acc s = (s', log, Ok acc') ->
  exists s1 log1 acc1 log2,
    for_each body l1 acc s = (s1, log1, Ok acc1) /\
    for_each body l2 acc1 s1 = (s', log2, Ok acc') /\
    log = log1 ++ log2.
Proof.
  induction l1 as [| a t IH]; intros acc s s' log acc' H.
  - exists s, [], acc, log. rewrite for_each_nil. auto.
  - cbn [app] in H. apply for_each_cons_ok in H.
    destruct H as (s1 & l1 & acc1 & l2' & Hb & Hr & ->).
    apply IH in Hr. destruct Hr as (s2 & log1 & acc2 & log2 & H1 & H2 & ->).
    exists s2, (l1 ++ log1), acc2, log2. split; [| split; [exact H2 | apply app_assoc]].
    cbn [for_each]. unfold bind. rewrite Hb, H1. reflexivity.
Qed.

(** After a completed run of [evaluate] with a configuration other than
    ['dnn'], the estimator of the object is the one [fit] returned for the
    training rows and labels of the last fold: a model of a part of the
    data, not of the whole. *)
Theorem evaluate_leaves_the_last_fold_estimator
    (s s' : Classifier) (log : list event)
    (folds : list (list nat * list nat)) (train_index test_index : list nat) :
  classifier_type s <> "dnn" ->
  StratifiedKFold_split (fst (cv s)) (snd (cv s)) (X s) (y s)
    = Ok (folds ++ [(train_index, test_index)]) ->
  evaluate s = (s', log, Ok tt) ->
  exists previous X_train y_train,
    take (X s) train_index = Ok X_train /\
    take (y s) train_index = Ok y_train /\
    fit previous (Some X_train) (Some y_train) = Ok (classifier s').
Proof.
  intros Hd Hsp H.
  destruct (evaluate_ok_with _ _ _ _ _ Hsp H) as (s2 & loop_log & sums & Hloop & Hrep & _ & _).
  apply report_ok in Hrep. destruct Hrep as (_ & -> & _).
  apply for_each_app_ok in Hloop.
  destruct Hloop as (s1 & log1 & sums1 & log2 & H1 & H2 & _).
  destruct (evaluate_loop_tracks _ _ _ _ _ _ _ H1) as ((HX & Hy & Hct & _) & _).
  apply for_each_cons_ok in H2.
  destruct H2 as (s3 & l3 & sums3 & l4 & Hfold & Hnil & _).
  rewrite for_each_nil in Hnil. inversion Hnil; subst s3.
  destruct (evaluate_fold_ok _ _ _ _ _ _ _ _ Hfold)
    as (Xtr & Xte & ytr & yte & p & yp & HXtr & _ & Hytr & _ & Ht & _).
  rewrite HX in HXtr. rewrite Hy in Hytr.
  rewrite train_fits in Ht by (cbn; congruence).
  unfold after_fit in Ht. cbn [classifier set_colors] in Ht.
  destruct (fit (classifier s1) (Some Xtr) (Some ytr)) as [q |] eqn:Hfit;
    inversion Ht; subst.
  exists (classifier s1), Xtr, ytr. auto.
Qed.

(** ** What [cross_validate] depends on and what it changes *)

Lemma cross_validate_fold_eq u tr te s :
  cross_validate_fold u (tr, te) s =
  let fitted :=
    rbind (known_labels (y s) tr) (fun kept =>
    rbind (take (X s) kept) (fun X_train =>
    rbind (take (y s) kept) (fun y_train =>
    fit (construct SVC_balanced) (Some X_train) (Some y_train)))) in
  (set_colors s (S (colors s)),
   match fitted with Ok model => [(model, te)] | Err _ => [] end,
   match fitted with Ok _ => Ok tt | Err e => Err e end).
Proof.
  unfold cross_validate_fold. unfold bind at 1. rewrite next_color_run.
  unfold bind at 1. unfold get at 1. cbn [X y set_colors].
  unfold bind, lift, emit.
  destruct (known_labels (y s) tr) as [kept | e]; cbn; [| reflexivity].
  destruct (take (X s) kept) as [Xtr | e]; cbn; [| reflexivity].
  destruct (take (y s) kept) as [ytr | e]; cbn; [| reflexivity].
  destruct (fit (construct SVC_balanced) (Some Xtr) (Some ytr)) as [model | e]; reflexivity.
Qed.



Lemma cross_validate_loop_state folds : forall s s' out r,
  for_each cross_validate_fold folds tt s = (s', out, r) ->
  same_but_colors s s' /\
  (length out <= colors s' - colors s <= length folds)%nat /\
  (r = Ok tt -> colors s' = (colors s + length folds)%nat).
Proof.
  induction folds as [| [tr te] folds IH]; intros s s' out r H.
  - rewrite for_each_nil in H. inversion H; subst.
    split; [unfold same_but_colors; auto 15 |].
    cbn [length]. split; [lia | intros _; lia].
  - cbn [for_each] in H. unfold bind in H. rewrite cross_validate_fold_eq in H. cbv zeta in H.
    match type of H with
    | context [match ?f with Ok _ => [_] | Err _ => [] end] => destruct f as [model | e]
    end.
    + destruct (for_each cross_validate_fold folds tt (set_colors s (S (colors s))))
        as [[s2 l2] r2] eqn:Hrest.
      inversion H; subst. apply IH in Hrest.
      destruct Hrest as (Hsame & Hn & Hok). cbn [colors set_colors] in *.
      unfold same_but_colors in *. cbn [X y items classifier_type classifier feature_names
        binary_class line_width folds_num cv colors set_colors] in Hsame.
      decompose [and] Hsame. destruct Hn as (Hn1 & Hn2).
      split; [repeat split; (assumption || lia) |].
      cbn [length app]. split; [lia | intros Hr; specialize (Hok Hr); lia].
    + inversion H; subst. unfold same_but_colors.
      cbn [X y items classifier_type classifier feature_names binary_class line_width
           folds_num cv colors set_colors length].
      split; [repeat split; lia |]. split; [lia | discriminate].
Qed.

(** No run of [cross_validate] changes the object except for the position
    in the colour cycle, which advances by at least the number of pairs
    yielded; the estimator of the object is never fitted. *)
Theorem cross_validate_only_moves_the_colour_cycle
    (s s' : Classifier) (out : list (Predictor * list nat)) (r : result unit) :
  cross_validate s = (s', out, r) ->
  X s' = X s /\ y s' = y s /\ items s' = items s /\
  classifier_type s' = classifier_type s /\ classifier s' = classifier s /\
  feature_names s' = feature_names s /\ binary_class s' = binary_class s /\
  line_width s' = line_width s /\ folds_num s' = folds_num s /\ cv s' = cv s /\
  (colors s + length out <= colors s')%nat.
Proof.
  unfold cross_validate, bind, get, lift.
  destruct (StratifiedKFold_split (fst (cv s)) (snd (cv s)) (X s) (y s)) as [folds | e].
  - destruct (for_each cross_validate_fold folds tt s) as [[s2 l2] r2] eqn:Hloop.
    intros H. assert (s2 = s' /\ l2 = out) as (-> & ->)
      by (destruct r2; inversion H; auto).
    apply cross_validate_loop_state in Hloop.
    destruct Hloop as (Hsame & (Hn1 & Hn2) & _). unfold same_but_colors in Hsame.
    decompose [and] Hsame. repeat split; (assumption || lia).
  - intros H; inversion H; subst. cbn. repeat split; lia.
Qed.

End MethodFacts.

(** ** The fold planner *)

Section FoldPlannerFacts.

Import FoldPlanner.

Variable shuffle_order : list nat -> list nat.
Hypothesis shuffle_order_perm : forall l, Permutation l (shuffle_order l).

Lemma deal_fst k l : forall j, map fst (deal k j l) = l.
Proof. induction l as [| i t IH]; intros j; cbn; [| rewrite IH]; reflexivity. Qed.

Lemma deal_snd_lt k l : forall j p, k <> 0%nat -> In p (deal k j l) -> (snd p < k)%nat.
Proof.
  induction l as [| i t IH]; intros j p Hk Hp; cbn in Hp; [contradiction |].
  destruct Hp as [<- | Hp]; [cbn; apply Nat.mod_upper_bound; exact Hk | eauto].
Qed.

Lemma members_spec labels c i :
  In i (members labels c) <-> (i < length labels)%nat /\ nth i labels 0%Z = c.
Proof.
  unfold members. rewrite filter_In, in_seq, Z.eqb_eq. intuition lia.
Qed.

Lemma members_NoDup labels c : NoDup (members labels c).
Proof. apply NoDup_filter, seq_NoDup. Qed.

Lemma dealt_perm labels shuffle c :
  Permutation (members labels c) (dealt shuffle_order labels shuffle c).
Proof. unfold dealt. destruct shuffle; [apply shuffle_order_perm | reflexivity]. Qed.

Lemma dealt_spec labels shuffle c i :
  In i (dealt shuffle_order labels shuffle c) <-> (i < length labels)%nat /\ nth i labels 0%Z = c.
Proof.
  rewrite <- members_spec. split; apply Permutation_in;
    [symmetry |]; apply dealt_perm.
Qed.

Lemma assignment_fst labels k shuffle :
  map fst (assignment shuffle_order labels k shuffle) =
  flat_map (dealt shuffle_order labels shuffle) (classes labels).
Proof.
  unfold assignment. induction (classes labels) as [| c cs IH]; cbn; [reflexivity |].
  rewrite map_app, deal_fst, IH. reflexivity.
Qed.

Lemma dealt_classes_NoDup labels shuffle cs :
  NoDup cs -> NoDup (flat_map (dealt shuffle_order labels shuffle) cs).
Proof.
  induction 1 as [| c cs Hc Hcs IH]; cbn; [constructor |].
  apply NoDup_app; [| exact IH |].
  - eapply Permutation_NoDup; [apply dealt_perm | apply members_NoDup].
  - intros i Hi Hi'. apply dealt_spec in Hi. apply in_flat_map in Hi'.
    destruct Hi' as (c' & Hc' & Hi'). apply dealt_spec in Hi'.
    destruct Hi as (_ & <-), Hi' as (_ & <-). contradiction.
Qed.

Lemma assignment_NoDup labels k shuffle :
  NoDup (map fst (assignment shuffle_order labels k shuffle)).
Proof. rewrite assignment_fst. apply dealt_classes_NoDup, NoDup_nodup. Qed.

Lemma assignment_covers labels k shuffle i :
  In i (map fst (assignment shuffle_order labels k shuffle)) <-> (i < length labels)%nat.
Proof.
  rewrite assignment_fst, in_flat_map. split.
  - intros (c & _ & Hi). apply dealt_spec in Hi. tauto.
  - intros Hi. exists (nth i labels 0%Z). split.
    + apply nodup_In, nth_In, Hi.
    + apply dealt_spec. auto.
Qed.

Lemma assignment_fold_lt labels k shuffle p :
  k <> 0%nat -> In p (assignment shuffle_order labels k shuffle) -> (snd p < k)%nat.
Proof.
  unfold assignment. intros Hk Hp. apply in_flat_map in Hp.
  destruct Hp as (c & _ & Hp). eapply deal_snd_lt; eassumption.
Qed.

Lemma test_indices_spec asg f i :
  In i (test_indices asg f) <-> In (i, f) asg.
Proof.
  unfold test_indices. rewrite in_map_iff. split.
  - intros ([i' f'] & <- & Hp). apply filter_In in Hp. destruct Hp as (Hp & He).
    cbn in He. apply Nat.eqb_eq in He. subst. exact Hp.
  - intros Hp. exists (i, f). split; [reflexivity |].
    apply filter_In. split; [exact Hp | cbn; apply Nat.eqb_refl].
Qed.

Lemma assigned_once (asg : list (nat * nat)) i f g :
  NoDup (map fst asg) -> In (i, f) asg -> In (i, g) asg -> f = g.
Proof.
  induction asg as [| [j h] t IH]; cbn; intros Hnd Hf Hg; [contradiction |].
  inversion Hnd as [| ? ? Hj Ht]; subst.
  destruct Hf as [Hf | Hf], Hg as [Hg | Hg].
  - congruence.
  - inversion Hf; subst. exfalso. apply Hj. apply in_map_iff. exists (i, g). auto.
  - inversion Hg; subst. exfalso. apply Hj. apply in_map_iff. exists (i, f). auto.
  - auto.
Qed.

Lemma split_ok {F : Type} (rows : list F) labels k shuffle :
  (forall c, In c labels -> (k <= class_size labels c)%nat) ->
  split shuffle_order rows labels k shuffle =
  Ok (map (fun i => (train_indices (assignment shuffle_order labels k shuffle) i,
                     test_indices (assignment shuffle_order labels k shuffle) i))
          (seq 0 k)).
Proof.
  intros Hc. unfold split.
  destruct (existsb _ _) eqn:He; [| reflexivity].
  apply existsb_exists in He. destruct He as (c & Hin & Hlt).
  apply nodup_In in Hin. apply Hc in Hin. apply Nat.ltb_lt in Hlt. lia.
Qed.

Lemma split_length {F : Type} (rows : list F) labels k shuffle folds :
  split shuffle_order rows labels k shuffle = Ok folds -> length folds = k.
Proof.
  unfold split. destruct (existsb _ _); [discriminate |].
  intros H; inversion H. rewrite length_map, length_seq. reflexivity.
Qed.


End FoldPlannerFacts.

(** C5.  If some class of the label vector has fewer members than [k],
    the split fails with [InsufficientSamplesError]. *)
Theorem split_fails_on_small_class {F : Type} (shuffle_order : list nat -> list nat)
    (rows : list F) (labels : list Z) (k : nat) (shuffle : bool) (c : Z) :
  In c labels ->
  (FoldPlanner.class_size labels c < k)%nat ->
  FoldPlanner.split shuffle_order rows labels k shuffle = Err InsufficientSamplesError.
Proof.
  intros Hin Hlt. unfold FoldPlanner.split.
  destruct (existsb _ _) eqn:He; [reflexivity |].
  rewrite <- not_true_iff_false in He. exfalso. apply He.
  apply existsb_exists. exists c. split; [apply nodup_In, Hin | apply Nat.ltb_lt, Hlt].
Qed.

(** C6.  For [k >= 2] and labels whose classes all have at least [k]
    members, the split returns exactly [k] folds; the test sets of two
    different folds share no index, and an index belongs to some test set
    exactly when it is in the range [0 .. len(y) - 1]. *)
Theorem split_test_sets_partition {F : Type} (shuffle_order : list nat -> list nat)
    (rows : list F) (labels : list Z) (k : nat) (shuffle : bool) :
  (forall l, Permutation l (shuffle_order l)) ->
  (2 <= k)%nat ->
  (forall c, In c labels -> (k <= FoldPlanner.class_size labels c)%nat) ->
  exists folds,
    FoldPlanner.split shuffle_order rows labels k shuffle = Ok folds /\
    length folds = k /\
    (forall i j ti tj,
       i <> j ->
       nth_error (map snd folds) i = Some ti ->
       nth_error (map snd folds) j = Some tj ->
       forall idx, In idx ti -> ~ In idx tj) /\
    (forall idx,
       (idx < length labels)%nat <->
       exists test, In test (map snd folds) /\ In idx test).
Proof.
  intros Hperm Hk Hc. eexists. split; [apply split_ok, Hc |].
  set (asg := FoldPlanner.assignment shuffle_order labels k shuffle).
  rewrite map_map. cbn [snd].
  split; [rewrite length_map, length_seq; reflexivity |].
  assert (Hnth : forall i t,
            nth_error (map (FoldPlanner.test_indices asg) (seq 0 k)) i = Some t ->
            t = FoldPlanner.test_indices asg i).
  { intros i t Hn. rewrite nth_error_map in Hn.
    destruct (nth_error (seq 0 k) i) as [m |] eqn:Hs; [| discriminate].
    assert (Hik : (i < k)%nat).
    { rewrite <- (length_seq k 0). apply nth_error_Some. congruence. }
    apply (nth_error_nth _ _ 0%nat) in Hs. rewrite seq_nth in Hs by exact Hik.
    cbn in Hn, Hs. inversion Hn. subst. reflexivity. }
  split.
  - intros i j ti tj Hij Hi Hj idx Hti Htj.
    apply Hnth in Hi, Hj. subst ti tj.
    apply test_indices_spec in Hti, Htj. apply Hij.
    eapply assigned_once; [| exact Hti | exact Htj].
    apply assignment_NoDup, Hperm.
  - intros idx. split.
    + intros Hlt. apply (assignment_covers shuffle_order Hperm labels k shuffle) in Hlt.
      apply in_map_iff in Hlt. destruct Hlt as ([i f] & Hfst & Hp). cbn in Hfst. subst i.
      exists (FoldPlanner.test_indices asg f). split.
      * apply in_map, in_seq.
        pose proof (assignment_fold_lt shuffle_order labels k shuffle (idx, f)) as Hf.
        cbn in Hf. specialize (Hf ltac:(lia) Hp). lia.
      * apply test_indices_spec. exact Hp.
    + intros (test & Ht & Hidx). apply in_map_iff in Ht.
      destruct Ht as (f & <- & _). apply test_indices_spec in Hidx.
      apply (assignment_covers shuffle_order Hperm labels k shuffle).
      apply in_map_iff. exists (idx, f). auto.
Qed.

(** ** Runs on the small instance *)

Example init_registered :
  @__init__ Toy.sklearn Toy.rows20 Toy.labels20 "svm" None None true = Ok Toy.binary20.
Proof. reflexivity. Qed.

(** [train] on an object whose [classifier_type] is ['dnn'] raises no
    [ConfigUnavailableError]: it returns the estimator the object holds,
    here one that was never fitted. *)
Lemma train_dnn_raises_nothing :
  classifier_type Toy.dnn20 = "dnn" /\
  @train Toy.sklearn event None None Toy.dnn20 = (Toy.dnn20, [], Ok None) /\
  snd (@train Toy.sklearn event None None Toy.dnn20) <> Err ConfigUnavailableError.
Proof. repeat split. discriminate. Qed.

Lemma train_dnn_returns_held_estimator_witness :
  @train Toy.sklearn event None None Toy.dnn20 =
  (Toy.dnn20, [], Ok (classifier Toy.dnn20)).
Proof. apply (@train_dnn_returns_held_estimator Toy.sklearn). reflexivity. Defined.

Lemma train_falls_back_only_when_both_None_witness :
  @train Toy.sklearn event None None Toy.binary20 =
    after_fit Toy.binary20 (Ok (Some Toy.labels20)) /\
  @train Toy.sklearn event (Some [5%Z]) None Toy.binary20 =
    after_fit Toy.binary20 (Err TypeError) /\
  @train Toy.sklearn event None (Some [1%Z]) Toy.binary20 =
    after_fit Toy.binary20 (Err TypeError) /\
  @train Toy.sklearn event (Some [5%Z]) (Some [1%Z]) Toy.binary20 =
    after_fit Toy.binary20 (Ok (Some [1%Z])).
Proof.
  apply (@train_falls_back_only_when_both_None Toy.sklearn Toy.binary20 [5%Z] [1%Z]).
  discriminate.
Defined.

(** The fourth fold of the planner on [labels20]. *)
Example fold4_planned :
  rbind (@StratifiedKFold_split Toy.sklearn 10 true Toy.rows20 Toy.labels20)
        (fun folds => getitem folds 3) = Ok Toy.fold4.
Proof. vm_compute. reflexivity. Qed.

Lemma evaluate_averages_divide_by_folds_num_witness :
  exists s' log,
    @evaluate Toy.sklearn Toy.binary20 = (s', log, Ok tt) /\
    length (values_of "AUC: %.2f" log) = 9%nat /\
    values_of "Avg. AUC: %.2f" log =
      [running_sum (values_of "AUC: %.2f" log) / inject_Z (Z.of_nat 10)].
Proof.
  do 2 eexists. split; [vm_compute; reflexivity |].
  split; [vm_compute; reflexivity |].
  refine (proj2 (proj2 (proj2 (proj2
    (@evaluate_averages_divide_by_folds_num Toy.sklearn Toy.binary20 _ _ _))))).
  vm_compute. reflexivity.
Defined.

(** In that run nine folds log an AUC of [3/4]; the reported average is
    their sum over ten, [27/40], not their mean. *)
Example auc_average_counts_skipped_folds :
  let log := snd (fst (@evaluate Toy.sklearn Toy.binary20)) in
  values_of "AUC: %.2f" log = repeat (3 # 4) 9 /\
  (exists v, values_of "Avg. AUC: %.2f" log = [v] /\ v == 27 # 40 /\ ~ v == 3 # 4).
Proof.
  split; [vm_compute; reflexivity |].
  eexists. split; [vm_compute; reflexivity |]. split; vm_compute; discriminate || reflexivity.
Qed.

(** The fourth fold tests two points and gets one probability row: the
    AUC sum stays where it was and the four metric lines are logged. *)
Lemma binary_fold_auc_iff_lengths_agree_witness :
  exists s' log sums',
    @evaluate_fold Toy.sklearn 1 zero_sums Toy.fold4 Toy.binary20 = (s', log, Ok sums') /\
    roc_auc_sum sums' = roc_auc_sum zero_sums /\
    log = binary_lines 1 (1 # 2) (1 # 2) (1 # 2).
Proof.
  do 3 eexists. split; [vm_compute; reflexivity |].
  destruct (@binary_fold_auc_iff_lengths_agree Toy.sklearn 1 zero_sums
              (fst Toy.fold4) (snd Toy.fold4) Toy.binary20 _ _ _ eq_refl
              ltac:(vm_compute; reflexivity))
    as (X_test & y_test & y_pred & probs & y_prob & a & r & p & f & tail
        & HX & Hy & Hpred & Hprobs & Hcol & Ha & Hr & Hp & Hf & _ & _ & _ & _ & Hlog & Hauc).
  vm_compute in HX, Hy. inversion HX; subst X_test. inversion Hy; subst y_test.
  vm_compute in Hprobs. inversion Hprobs; subst probs.
  vm_compute in Hcol. inversion Hcol; subst y_prob.
  destruct Hauc as [(Hlen & _) | (_ & Hsum & ->)]; [discriminate Hlen |].
  split; [exact Hsum |].
  cbn in Ha, Hr, Hp, Hf. inversion Ha; inversion Hr; inversion Hp; inversion Hf; subst.
  rewrite app_nil_r in Hlog. exact Hlog.
Defined.

Lemma multiclass_uses_macro_and_no_accuracy_witness :
  exists s' log,
    @evaluate Toy.sklearn Toy.multiclass20 = (s', log, Ok tt) /\
    values_of "Accuracy: %.2f" log = [] /\
    values_of "Avg. accuracy: %.2f" log = [].
Proof.
  do 2 eexists. split; [vm_compute; reflexivity |].
  destruct (proj2 (@multiclass_uses_macro_and_no_accuracy Toy.sklearn Toy.multiclass20
                     eq_refl) _ _ ltac:(vm_compute; reflexivity))
    as (Hacc & Havg & _).
  split; [exact Hacc | exact Havg].
Defined.

Lemma toy_scores_in_unit_interval : @scores_in_unit_interval Toy.sklearn.
Proof.
  unfold scores_in_unit_interval. cbn.
  repeat split;
    repeat match goal with
           | av : average |- _ => destruct av
           end;
    try (inversion H; subst; lra).
Defined.

Lemma toy_split_length (rows labels : list Z) folds k shuffle :
  @StratifiedKFold_split Toy.sklearn k shuffle rows labels = Ok folds ->
  (length folds <= k)%nat.
Proof. cbn. intros H. apply split_length in H. lia. Defined.

Lemma evaluate_averages_in_unit_interval_witness :
  exists s' log,
    @evaluate Toy.sklearn Toy.binary20 = (s', log, Ok tt) /\
    forall fmt v,
      In fmt ["Avg. accuracy: %.2f"; "Avg. recall: %.2f"; "Avg. precision: %.2f";
              "Avg. F-measure: %.2f"] ->
      In v (values_of fmt log) ->
      0 <= v <= 1.
Proof.
  do 2 eexists. split; [vm_compute; reflexivity |].
  eapply (@evaluate_averages_in_unit_interval Toy.sklearn Toy.binary20).
  - exact toy_scores_in_unit_interval.
  - intros folds. apply toy_split_length.
  - vm_compute. reflexivity.
Defined.

(** On thirty points of which ten are unlabelled, the generator yields ten
    pairs, each with the planner's test indices. *)
Lemma cross_validate_drops_unknown_from_training_only_witness :
  exists s' out folds,
    @StratifiedKFold_split Toy.sklearn 10 true Toy.rows30 Toy.labels30 = Ok folds /\
    @cross_validate Toy.sklearn Toy.unknown30 = (s', out, Ok tt) /\
    length out = length folds /\
    Forall2 (fun fold yielded => snd yielded = snd fold) folds out.
Proof.
  do 3 eexists. split; [vm_compute; reflexivity |].
  split; [vm_compute; reflexivity |].
  destruct (@cross_validate_drops_unknown_from_training_only Toy.sklearn Toy.unknown30
              _ _ _ _ ltac:(vm_compute; reflexivity) ltac:(vm_compute; reflexivity))
    as (Hall & Hlen).
  split; [exact (Hlen eq_refl) |].
  cbn [length firstn] in Hall.
  eapply Forall2_impl; [| exact Hall].
  intros fold yielded (Hte & _). exact Hte.
Defined.

Lemma cross_validate_keeps_nonnegative_labels_witness :
  exists s' out folds,
    @StratifiedKFold_split Toy.sklearn 10 true Toy.rows30 Toy.labels30 = Ok folds /\
    @cross_validate Toy.sklearn Toy.unknown30 = (s', out, Ok tt) /\
    Forall2
      (fun fold yielded =>
         exists X_train y_train,
           take Toy.rows30
             (filter (fun idx => (0 <=? nth idx Toy.labels30 0)%Z) (fst fold)) = Ok X_train /\
           take Toy.labels30
             (filter (fun idx => (0 <=? nth idx Toy.labels30 0)%Z) (fst fold)) = Ok y_train /\
           Toy.toy_fit None (Some X_train) (Some y_train) = Ok (fst yielded))
      folds out.
Proof.
  do 3 eexists. split; [vm_compute; reflexivity |].
  split; [vm_compute; reflexivity |].
  pose proof (@cross_validate_keeps_nonnegative_labels Toy.sklearn Toy.unknown30
                _ _ _ _ ltac:(vm_compute; reflexivity) ltac:(vm_compute; reflexivity))
    as Hall.
  cbn [length firstn] in Hall.
  eapply Forall2_impl; [| exact Hall].
  intros fold yielded (kept & Xtr & ytr & -> & _ & HX & Hy & Hfit).
  exists Xtr, ytr. auto.
Defined.

(** A class of three members and ten folds. *)
Lemma split_fails_on_small_class_witness :
  FoldPlanner.split (@rev nat) Toy.rows20 Toy.labels14 10 true
  = Err InsufficientSamplesError.
Proof.
  apply (split_fails_on_small_class (@rev nat) Toy.rows20 Toy.labels14 10 true 1%Z).
  - cbn. auto.
  - vm_compute. lia.
Defined.

Lemma labels20_classes_large :
  forall c, In c Toy.labels20 -> (10 <= FoldPlanner.class_size Toy.labels20 c)%nat.
Proof.
  intros c Hin. cbn in Hin.
  repeat (destruct Hin as [<- | Hin]; [vm_compute; lia |]). contradiction.
Defined.

Lemma split_test_sets_partition_witness :
  exists folds,
    FoldPlanner.split (@rev nat) Toy.rows20 Toy.labels20 10 true = Ok folds /\
    length folds = 10%nat /\
    (forall i j ti tj,
       i <> j ->
       nth_error (map snd folds) i = Some ti ->
       nth_error (map snd folds) j = Some tj ->
       forall idx, In idx ti -> ~ In idx tj) /\
    (forall idx,
       (idx < length Toy.labels20)%nat <->
       exists test, In test (map snd folds) /\ In idx test).
Proof.
  apply (split_test_sets_partition (@rev nat) Toy.rows20 Toy.labels20 10 true).
  - intros l. apply Permutation_rev.
  - lia.
  - exact labels20_classes_large.
Defined.

(** The ten test sets the planner returns for [labels20]. *)
Example split_labels20 :
  rbind (FoldPlanner.split (@rev nat) Toy.rows20 Toy.labels20 10 true)
        (fun folds => Ok (map snd folds))
  = Ok [[9; 19]; [8; 18]; [7; 17]; [6; 16]; [5; 15]; [4; 14]; [3; 13]; [2; 12];
        [1; 11]; [0; 10]]%nat.
Proof. vm_compute. reflexivity. Qed.

(** ** More runs on the small instance *)

Ltac find_in_list := repeat first [left; reflexivity | right].

Lemma evaluate_labels_every_roc_line_fold_1_witness :
  exists s' log fold_index,
    @evaluate Toy.sklearn Toy.binary20 = (s', log, Ok tt) /\
    In (Plot [0; 1] [0; 1] 2 "indigo" fold_index (3 # 4)) log /\
    fold_index = 1%nat.
Proof.
  do 3 eexists. split; [vm_compute; reflexivity |].
  assert (Hin : In (Plot [0; 1] [0; 1] 2 "indigo" 1 (3 # 4))
                  (snd (fst (@evaluate Toy.sklearn Toy.binary20))))
    by (vm_compute; find_in_list).
  split; [exact Hin |].
  eapply (@evaluate_labels_every_roc_line_fold_1 Toy.sklearn Toy.binary20);
    [| exact Hin].
  vm_compute. reflexivity.
Defined.




Lemma evaluate_never_fits_dnn_witness :
  exists s' log r,
    @evaluate Toy.sklearn Toy.dnn20 = (s', log, r) /\
    classifier s' = classifier Toy.dnn20.
Proof.
  do 3 eexists. split; [vm_compute; reflexivity |].
  eapply (@evaluate_never_fits_dnn Toy.sklearn Toy.dnn20); [reflexivity |].
  vm_compute. reflexivity.
Defined.

Lemma binary_fold_auc_needs_one_row_per_test_point_witness :
  exists s' log sums',
    @evaluate_fold Toy.sklearn 1 zero_sums Toy.fold4 Toy.binary20 = (s', log, Ok sums') /\
    values_of "AUC: %.2f" log = [] /\
    roc_auc_sum sums' = roc_auc_sum zero_sums.
Proof.
  do 3 eexists. split; [vm_compute; reflexivity |].
  destruct (@binary_fold_auc_needs_one_row_per_test_point Toy.sklearn 1 zero_sums
              (fst Toy.fold4) (snd Toy.fold4) Toy.binary20 _ _ _ eq_refl
              ltac:(vm_compute; reflexivity))
    as (X_test & probs & HX & Hprobs & _ & Hne).
  vm_compute in HX. inversion HX; subst X_test.
  vm_compute in Hprobs. inversion Hprobs; subst probs.
  apply Hne. discriminate.
Defined.

Example folds20_planned :
  @StratifiedKFold_split Toy.sklearn 10 true Toy.rows20 Toy.labels20 = Ok Toy.folds20.
Proof. vm_compute. reflexivity. Qed.

Lemma evaluate_logs_one_line_per_fold_witness :
  exists s' log,
    @evaluate Toy.sklearn Toy.binary20 = (s', log, Ok tt) /\
    length (values_of "Recall: %.2f" log) = 10%nat /\
    length (values_of "Precision: %.2f" log) = 10%nat /\
    length (values_of "F-measure: %.2f" log) = 10%nat /\
    length (values_of "Accuracy: %.2f" log) = 10%nat /\
    (length (values_of "AUC: %.2f" log) <= 10)%nat.
Proof.
  do 2 eexists. split; [vm_compute; reflexivity |].
  exact (@evaluate_logs_one_line_per_fold Toy.sklearn Toy.binary20 _ _ Toy.folds20
           folds20_planned ltac:(vm_compute; reflexivity)).
Defined.

Lemma evaluate_draws_one_colour_per_fold_witness :
  exists s' log,
    @evaluate Toy.sklearn Toy.binary20 = (s', log, Ok tt) /\
    colors s' = (0 + 10)%nat.
Proof.
  do 2 eexists. split; [vm_compute; reflexivity |].
  exact (@evaluate_draws_one_colour_per_fold Toy.sklearn Toy.binary20 _ _ Toy.folds20
           folds20_planned ltac:(vm_compute; reflexivity)).
Defined.

Lemma evaluate_averages_are_means_over_folds_num_folds_witness :
  exists s' log,
    @evaluate Toy.sklearn Toy.multiclass20 = (s', log, Ok tt) /\
    values_of "Avg. recall: %.2f" log =
      [running_sum (values_of "Recall: %.2f" log) /
       inject_Z (Z.of_nat (length (values_of "Recall: %.2f" log)))].
Proof.
  do 2 eexists. split; [vm_compute; reflexivity |].
  exact (proj1 (@evaluate_averages_are_means_over_folds_num_folds Toy.sklearn
                  Toy.multiclass20 _ _ Toy.folds20 folds20_planned eq_refl
                  ltac:(vm_compute; reflexivity))).
Defined.

Lemma evaluate_shows_graph_iff_positive_auc_sum_witness :
  exists s' log,
    @evaluate Toy.sklearn Toy.binary20 = (s', log, Ok tt) /\
    In (ShowRocGraph false) log /\
    last log (ShowRocGraph true) = ShowRocGraph false.
Proof.
  do 2 eexists. split; [vm_compute; reflexivity |].
  destruct (@evaluate_shows_graph_iff_positive_auc_sum Toy.sklearn Toy.binary20 _ _ false
              ltac:(vm_compute; reflexivity)) as (Hiff & Hlast).
  assert (Hin : In (ShowRocGraph false) (snd (fst (@evaluate Toy.sklearn Toy.binary20)))).
  { apply Hiff. repeat split. }
  split; [exact Hin | exact (Hlast Hin)].
Defined.

Lemma evaluate_leaves_the_last_fold_estimator_witness :
  exists s' log previous X_train y_train,
    @evaluate Toy.sklearn Toy.binary20 = (s', log, Ok tt) /\
    take Toy.rows20 (fst (nth 9 Toy.folds20 ([], []))) = Ok X_train /\
    take Toy.labels20 (fst (nth 9 Toy.folds20 ([], []))) = Ok y_train /\
    Toy.toy_fit previous (Some X_train) (Some y_train) = Ok (classifier s').
Proof.
  destruct (@evaluate_leaves_the_last_fold_estimator Toy.sklearn Toy.binary20
              _ _ (firstn 9 Toy.folds20)
              (fst (nth 9 Toy.folds20 ([], []))) (snd (nth 9 Toy.folds20 ([], [])))
              ltac:(discriminate) ltac:(vm_compute; reflexivity)
              ltac:(vm_compute; reflexivity))
    as (previous & X_train & y_train & HX & Hy & Hfit).
  do 2 eexists. exists previous, X_train, y_train.
  split; [vm_compute; reflexivity |]. auto.
Defined.


Lemma cross_validate_only_moves_the_colour_cycle_witness :
  exists s' out,
    @cross_validate Toy.sklearn Toy.unknown30 = (s', out, Ok tt) /\
    classifier s' = classifier Toy.unknown30 /\
    (colors Toy.unknown30 + length out <= colors s')%nat.
Proof.
  do 2 eexists. split; [vm_compute; reflexivity |].
  destruct (@cross_validate_only_moves_the_colour_cycle Toy.sklearn Toy.unknown30 _ _ _
              ltac:(vm_compute; reflexivity))
    as (_ & _ & _ & _ & Hc & _ & _ & _ & _ & _ & Hn).
  split; [exact Hc | exact Hn].
Defined.
